(** * TinySolder: T12 soldering station firmware for the ATtiny13A

    A shallow embedding of [software/TinySolder.ino] (firmware v1.1) and of
    the arithmetic of the v1.0 sketch
    [software/sources/SolderingStation_Tiny13_v1.0.ino].

    The target is an 8-bit AVR compiled with avr-gcc: [int] and
    [unsigned int] are 16 bits wide, [uint16_t] is [unsigned int] (so it is
    never promoted to a signed type), [uint32_t] is [unsigned long].
    Integers are modelled as [Z] with every wrap-around written out. *)

From Stdlib Require Import ZArith List Bool Lia.
Import ListNotations.
Local Open Scope Z_scope.

(** ** Machine integers *)

Definition u8  (z : Z) : Z := z mod 256.
Definition u16 (z : Z) : Z := z mod 65536.
Definition u32 (z : Z) : Z := z mod 4294967296.

(** ** Definitions of the firmware (TinySolder.ino, lines 68-85) *)

Module Pin.
Definition LED    : Z := 0.   (* PB0 *)
Definition HEATER : Z := 1.   (* PB1 *)
Definition SWITCH : Z := 2.   (* PB2 *)
Definition TEMP   : Z := 3.   (* PB3 *)
Definition POTI   : Z := 4.   (* PB4 *)
End Pin.

Definition TEMPSLEEP : Z := 100.
Definition TEMP150   : Z := 118.
Definition TEMP300   : Z := 221.
Definition TEMP450   : Z := 324.

Definition CYCLETIME   : Z := 50.
Definition TIME2SETTLE : Z := 900.
Definition TIME2SLEEP  : Z := 300.
Definition TIME2OFF    : Z := 600.

(** The two thresholds as the code writes them, in 16-bit [int] arithmetic:
    [TIME2SLEEP/CYCLETIME*1000] (line 199) and [TIME2OFF/CYCLETIME*1000]
    (line 137).  Both are below 32768, so nothing wraps. *)
Definition SLEEP_THRESHOLD : Z := TIME2SLEEP / CYCLETIME * 1000.
Definition OFF_THRESHOLD   : Z := TIME2OFF / CYCLETIME * 1000.

(** [pinADC(x)], line 96. *)
Definition pinADC (x : Z) : Z :=
  if x =? 2 then 1 else if x =? 3 then 3 else if x =? 4 then 2 else 0.

(** ** Setpoint mapping *)

(** TinySolder.ino, lines 184-185:
<<
    if(poti < 512) setpoint = (uint32_t)(( poti        * (TEMP300 - TEMP150))>>9) + TEMP150;
    else           setpoint = (uint32_t)(((poti - 512) * (TEMP450 - TEMP300))>>9) + TEMP300;
>>
    The product and the shift are 16-bit unsigned; the cast to [uint32_t]
    comes after the shift; the sum is 32-bit and is stored in the
    [uint16_t] setpoint. *)
Definition mapSetpoint (poti : Z) : Z :=
  if poti <? 512
  then u16 (u32 (u32 (Z.shiftr (u16 (poti * (TEMP300 - TEMP150))) 9) + TEMP150))
  else u16 (u32 (u32 (Z.shiftr (u16 (u16 (poti - 512) * (TEMP450 - TEMP300))) 9)
                 + TEMP300)).

(** SolderingStation_Tiny13_v1.0.ino, lines 84-85 (the same two lines are in
    the older [main] kept at the end of TinySolder.ino, lines 330-331):
<<
    if (poti < 512) setpoint = (uint32_t)poti * (TEMP300 - TEMP150) / 512 + TEMP150;
    else            setpoint = (uint32_t)(poti - 512) * (TEMP450 - TEMP300) / (511) + TEMP300;
>>
    Here the operand is widened first, so product, quotient and sum are
    32-bit unsigned. *)
Definition mapSetpoint_v10 (poti : Z) : Z :=
  if poti <? 512
  then u16 (u32 (u32 (u32 poti * (TEMP300 - TEMP150)) / 512 + TEMP150))
  else u16 (u32 (u32 (u32 (u16 (poti - 512)) * (TEMP450 - TEMP300)) / 511
                 + TEMP300)).

(** The mapping in the words of the specification (section 4.2), over
    unbounded integers, division truncating toward zero. *)
Definition mapSetpoint_spec (rawPoti : Z) : Z :=
  if rawPoti <? 512
  then Z.quot (rawPoti * (TEMP300 - TEMP150)) 512 + TEMP150
  else Z.quot ((rawPoti - 512) * (TEMP450 - TEMP300)) 511 + TEMP300.

(** What the v1.1 firmware computes, over unbounded integers: both segments
    divide by 512. *)
Definition mapSetpoint_shift9 (rawPoti : Z) : Z :=
  if rawPoti <? 512
  then Z.quot (rawPoti * (TEMP300 - TEMP150)) 512 + TEMP150
  else Z.quot ((rawPoti - 512) * (TEMP450 - TEMP300)) 512 + TEMP300.

(** ** Temperature filter *)

(** TinySolder.ino, line 191:
    [smooth = ((smooth << 3) - smooth + temp) >> 3;]  all in [uint16_t]. *)
Definition lowpass (smooth temp : Z) : Z :=
  Z.shiftr (u16 (u16 (u16 (Z.shiftl smooth 3) - smooth) + temp)) 3.

(** SolderingStation_Tiny13_v1.0.ino, line 91:
    [smooth = (smooth * 7 + temp) / 8;]  all in [uint16_t]. *)
Definition lowpass_v10 (smooth temp : Z) : Z :=
  u16 (u16 (smooth * 7) + temp) / 8.

(** The update in the words of the specification (section 4.3):
    [new = (old*7 + raw) / 8], truncating, over unbounded integers. *)
Definition lowpass_spec (old raw : Z) : Z := Z.quot (old * 7 + raw) 8.

(** [n] updates of the filter with the same raw sample. *)
Fixpoint lowpass_iter (n : nat) (smooth raw : Z) : Z :=
  match n with
  | O => smooth
  | S k => lowpass_iter k (lowpass smooth raw) raw
  end.

(** ** Machine state *)

(** The I/O registers the control code writes, the global [handleTimer],
    the locals of [main] and the block-local [temp] of [sleep].  [conv]
    counts the A/D conversions taken so far.  The registers that only
    configure the hardware (ADCSRA, DIDR0, GIMSK, PCMSK, the sleep mode) and
    the delays carry no state here. *)
Record state : Type := mkState {
  PORTB       : Z;
  DDRB        : Z;
  ADMUX       : Z;
  handleTimer : Z;
  poti        : Z;
  temp        : Z;
  smooth      : Z;
  setpoint    : Z;
  sleep_temp  : Z;
  conv        : nat
}.

Definition set_PORTB (v : Z) (s : state) : state :=
  mkState v (DDRB s) (ADMUX s) (handleTimer s) (poti s) (temp s) (smooth s)
          (setpoint s) (sleep_temp s) (conv s).
Definition set_DDRB (v : Z) (s : state) : state :=
  mkState (PORTB s) v (ADMUX s) (handleTimer s) (poti s) (temp s) (smooth s)
          (setpoint s) (sleep_temp s) (conv s).
Definition set_ADMUX (v : Z) (s : state) : state :=
  mkState (PORTB s) (DDRB s) v (handleTimer s) (poti s) (temp s) (smooth s)
          (setpoint s) (sleep_temp s) (conv s).
Definition set_handleTimer (v : Z) (s : state) : state :=
  mkState (PORTB s) (DDRB s) (ADMUX s) v (poti s) (temp s) (smooth s)
          (setpoint s) (sleep_temp s) (conv s).
Definition set_poti (v : Z) (s : state) : state :=
  mkState (PORTB s) (DDRB s) (ADMUX s) (handleTimer s) v (temp s) (smooth s)
          (setpoint s) (sleep_temp s) (conv s).
Definition set_temp (v : Z) (s : state) : state :=
  mkState (PORTB s) (DDRB s) (ADMUX s) (handleTimer s) (poti s) v (smooth s)
          (setpoint s) (sleep_temp s) (conv s).
Definition set_smooth (v : Z) (s : state) : state :=
  mkState (PORTB s) (DDRB s) (ADMUX s) (handleTimer s) (poti s) (temp s) v
          (setpoint s) (sleep_temp s) (conv s).
Definition set_setpoint (v : Z) (s : state) : state :=
  mkState (PORTB s) (DDRB s) (ADMUX s) (handleTimer s) (poti s) (temp s)
          (smooth s) v (sleep_temp s) (conv s).
Definition set_sleep_temp (v : Z) (s : state) : state :=
  mkState (PORTB s) (DDRB s) (ADMUX s) (handleTimer s) (poti s) (temp s)
          (smooth s) (setpoint s) v (conv s).
Definition set_conv (v : nat) (s : state) : state :=
  mkState (PORTB s) (DDRB s) (ADMUX s) (handleTimer s) (poti s) (temp s)
          (smooth s) (setpoint s) (sleep_temp s) v.

(** Pin manipulation macros, lines 88-92.  [~(1<<x)] is a 16-bit [int];
    the result is stored back into an 8-bit register. *)
Definition pinInput (x : Z) (s : state) : state :=
  set_DDRB (u8 (Z.land (DDRB s) (Z.lnot (Z.shiftl 1 x)))) s.
Definition pinOutput (x : Z) (s : state) : state :=
  set_DDRB (u8 (Z.lor (DDRB s) (Z.shiftl 1 x))) s.
Definition pinLow (x : Z) (s : state) : state :=
  set_PORTB (u8 (Z.land (PORTB s) (Z.lnot (Z.shiftl 1 x)))) s.
Definition pinHigh (x : Z) (s : state) : state :=
  set_PORTB (u8 (Z.lor (PORTB s) (Z.shiftl 1 x))) s.
(** [PINB |= (1<<x)]: on the AVR, writing a one to a bit of PINB toggles the
    same bit of PORTB; the statement compiles to a single-bit [sbi]. *)
Definition pinToggle (x : Z) (s : state) : state :=
  set_PORTB (u8 (Z.lxor (PORTB s) (Z.shiftl 1 x))) s.

(** The two outputs as the hardware sees them. *)
Definition heaterOn (s : state) : bool := Z.testbit (PORTB s) Pin.HEATER.
Definition statusOn (s : state) : bool := Z.testbit (PORTB s) Pin.LED.

(** ** Analog sampler *)

(** The environment: [adc ch k] is the value of the ADC data register after
    the [k]-th conversion of the run, taken on channel [ch]. *)
Definition adc_env : Type := Z -> nat -> Z.

(** The loop of [ADC_read], lines 118-122: [for (uint8_t i=16; i; i--)],
    [result += ADC] in [uint16_t]. *)
Fixpoint ADC_loop (adc : adc_env) (port : Z) (i : nat) (result : Z) (c : nat)
  : Z * nat :=
  match i with
  | O => (result, c)
  | S i' => ADC_loop adc port i' (u16 (result + adc port c)) (S c)
  end.

(** [ADC_read], lines 113-124; [port] is a [uint8_t].  Clearing the pending
    flag, the sleep mode and the wait for ADSC carry no state: each pass of
    the loop reads the next conversion of the channel selected in ADMUX. *)
Definition ADC_read (adc : adc_env) (port : Z) (s : state) : Z * state :=
  let s := set_ADMUX (u8 port) s in
  let '(result, c) := ADC_loop adc (ADMUX s) 16 0 (conv s) in
  (Z.shiftr result 4, set_conv c s).

(** The loop of [denoiseAnalog] (TinySolder.ino, lines 279-283, and
    SolderingStation_Tiny13_v1.0.ino, lines 111-115):
    [for (uint8_t i=0; i<16; i++)].  The loop counts upward, so the model
    takes fuel; [None] means the fuel ran out. *)
Fixpoint denoise_loop (adc : adc_env) (port : Z) (fuel : nat) (i result : Z)
  (c : nat) : option (Z * nat) :=
  if i <? 16 then
    match fuel with
    | O => None
    | S f => denoise_loop adc port f (u8 (i + 1)) (u16 (result + adc port c)) (S c)
    end
  else Some (result, c).

(** [denoiseAnalog] of the older [main] (TinySolder.ino, lines 274-285). *)
Definition denoiseAnalog (adc : adc_env) (port : Z) (s : state)
  : option (Z * state) :=
  let s := set_ADMUX (u8 port) s in
  match denoise_loop adc (ADMUX s) 16 0 0 (conv s) with
  | Some (result, c) => Some (Z.shiftr result 4, set_conv c s)
  | None => None
  end.

(** The sum of the [n] conversions that start at index [c]. *)
Fixpoint adc_sum (adc : adc_env) (port : Z) (n c : nat) : Z :=
  match n with
  | O => 0
  | S n' => adc port c + adc_sum adc port n' (S c)
  end.

(** An environment that replays a list of readings on every channel, and
    reads 0 once the list is used up. *)
Definition adc_of_list (l : list Z) : adc_env := fun _ k => nth k l 0.

(** ** The statements of [main] and [sleep] (TinySolder.ino) *)

Module Stmt.
Import Pin.

(** line 183: [poti = ADC_read(pinADC(POTI));] *)
Definition read_poti (adc : adc_env) (s : state) : state :=
  let '(r, s) := ADC_read adc (pinADC POTI) s in set_poti r s.

(** lines 184-185 *)
Definition map_setpoint (s : state) : state :=
  set_setpoint (mapSetpoint (poti s)) s.

(** line 188: [pinLow(HEATER);] *)
Definition heater_off (s : state) : state := pinLow HEATER s.

(** line 190: [temp = ADC_read(pinADC(TEMP));] *)
Definition read_temp (adc : adc_env) (s : state) : state :=
  let '(r, s) := ADC_read adc (pinADC TEMP) s in set_temp r s.

(** line 191 *)
Definition smooth_temp (s : state) : state :=
  set_smooth (lowpass (smooth s) (temp s)) s.

(** line 192: [if(smooth < setpoint) pinHigh(HEATER);] *)
Definition heater_set (s : state) : state :=
  if smooth s <? setpoint s then pinHigh HEATER s else s.

(** line 195: [pinLow(LED);] *)
Definition led_off (s : state) : state := pinLow LED s.

(** line 196:
    [if((smooth + 10 > setpoint) && (setpoint + 10 > smooth)) pinHigh(LED);]
    both sums are 16-bit unsigned. *)
Definition led_set (s : state) : state :=
  if (u16 (smooth s + 10) >? setpoint s) && (u16 (setpoint s + 10) >? smooth s)
  then pinHigh LED s else s.

(** line 199: [handleTimer++ > TIME2SLEEP/CYCLETIME*1000]: the value
    before the increment is compared; the flag tells whether [sleep()] is
    called. *)
Definition timer_tick (s : state) : bool * state :=
  (handleTimer s >? SLEEP_THRESHOLD,
   set_handleTimer (u16 (handleTimer s + 1)) s).

(** line 135: the condition of [while(handleTimer)]. *)
Definition sleep_cond (s : state) : bool := negb (handleTimer s =? 0).

(** line 137: [handleTimer < TIME2OFF/CYCLETIME*1000]. *)
Definition not_off (s : state) : bool := handleTimer s <? OFF_THRESHOLD.

(** line 138: [handleTimer++;] *)
Definition sleep_inc (s : state) : state :=
  set_handleTimer (u16 (handleTimer s + 1)) s.

(** line 140: [uint16_t temp = ADC_read(pinADC(TEMP));] *)
Definition sleep_read (adc : adc_env) (s : state) : state :=
  let '(r, s) := ADC_read adc (pinADC TEMP) s in set_sleep_temp r s.

(** line 141: [if(temp < TEMPSLEEP) pinHigh(HEATER);] *)
Definition sleep_heat (s : state) : state :=
  if sleep_temp s <? TEMPSLEEP then pinHigh HEATER s else s.

(** line 142: [pinToggle(LED);] *)
Definition led_toggle (s : state) : state := pinToggle LED s.

(** line 144: [pinInput(LED);] *)
Definition led_input (s : state) : state := pinInput LED s.

(** line 148: [pinOutput(LED);] *)
Definition led_output (s : state) : state := pinOutput LED s.
End Stmt.

(** The pin change interrupt service routine, lines 152-154. *)
Definition PCINT0_vect (s : state) : state := set_handleTimer 0 s.

(** Set-up of [main], lines 165-178.  The pins are configured and the
    filter state is seeded with one sampler result.  [pinDisable], the
    interrupt masks, [sei] and [ADC_init] write registers that are not part
    of [state]. *)
Definition boot (adc : adc_env) (s : state) : state :=
  let s := pinOutput Pin.LED s in
  let s := pinOutput Pin.HEATER s in
  let s := pinHigh Pin.SWITCH s in
  let '(r, s) := ADC_read adc (pinADC Pin.TEMP) s in
  set_smooth r s.

(** ** Straight-line readings of the two loop bodies *)

(** Lines 183-196 of the main loop: setpoint, heater and status LED. *)
Definition control (adc : adc_env) (s : state) : state :=
  Stmt.led_set (Stmt.led_off (Stmt.heater_set (Stmt.smooth_temp
    (Stmt.read_temp adc (Stmt.heater_off (Stmt.map_setpoint
      (Stmt.read_poti adc s))))))).

(** One pass of the main loop up to the decision of line 199, with no
    interrupt in between. *)
Definition main_cycle (adc : adc_env) (s : state) : bool * state :=
  Stmt.timer_tick (control adc s).

(** The body of the [while] loop of [sleep], lines 136-146, with no
    interrupt in between. *)
Definition sleep_body (adc : adc_env) (s : state) : state :=
  let s := Stmt.heater_off s in
  if Stmt.not_off s
  then Stmt.led_toggle (Stmt.sleep_heat (Stmt.sleep_read adc (Stmt.sleep_inc s)))
  else Stmt.led_input s.

Fixpoint sleep_iter (adc : adc_env) (n : nat) (s : state) : state :=
  match n with
  | O => s
  | S k => sleep_iter adc k (sleep_body adc s)
  end.

(** ** The program as a machine with interrupts *)

(** Program points, named after the lines of TinySolder.ino. *)
Inductive label : Type :=
| L183 | L184 | L188 | L189 | L190 | L191 | L192 | L195 | L196 | L199 | L200
| L135 | L136 | L137 | L138 | L139 | L140 | L141 | L142 | L144 | L146 | L148.

Definition config : Type := (label * state)%type.

(** One statement.  [sleep()] is called at line 199 and returns to the
    delay of line 200. *)
Definition step (adc : adc_env) (c : config) : config :=
  let '(l, s) := c in
  match l with
  | L183 => (L184, Stmt.read_poti adc s)
  | L184 => (L188, Stmt.map_setpoint s)
  | L188 => (L189, Stmt.heater_off s)
  | L189 => (L190, s)
  | L190 => (L191, Stmt.read_temp adc s)
  | L191 => (L192, Stmt.smooth_temp s)
  | L192 => (L195, Stmt.heater_set s)
  | L195 => (L196, Stmt.led_off s)
  | L196 => (L199, Stmt.led_set s)
  | L199 => let '(b, s') := Stmt.timer_tick s in
            (if b then L135 else L200, s')
  | L200 => (L183, s)
  | L135 => (if Stmt.sleep_cond s then L136 else L148, s)
  | L136 => (L137, Stmt.heater_off s)
  | L137 => (if Stmt.not_off s then L138 else L144, s)
  | L138 => (L139, Stmt.sleep_inc s)
  | L139 => (L140, s)
  | L140 => (L141, Stmt.sleep_read adc s)
  | L141 => (L142, Stmt.sleep_heat s)
  | L142 => (L146, Stmt.led_toggle s)
  | L144 => (L146, Stmt.led_input s)
  | L146 => (L135, s)
  | L148 => (L200, Stmt.led_output s)
  end.

(** What happens next: the processor runs one statement, or the tilt switch
    changes and the interrupt routine runs. *)
Inductive event : Type := Tick | Irq.

Definition deliver (adc : adc_env) (c : config) (e : event) : config :=
  match e with
  | Tick => step adc c
  | Irq => (fst c, PCINT0_vect (snd c))
  end.

Definition exec (adc : adc_env) (tr : list event) (c : config) : config :=
  fold_left (deliver adc) tr c.

(** ** Test data, runs and invariants used in the statements below *)

(** The signed distance [smooth - raw] between filter state and sample
    follows [e |-> floor(7e/8)] (lemma [lowpass_error]). *)
Definition err_step (e : Z) : Z := 7 * e / 8.

Fixpoint err_iter (n : nat) (e : Z) : Z :=
  match n with
  | O => e
  | S k => err_iter k (err_step e)
  end.

(** The number of updates after which every start in 0..1023 has settled. *)
Definition SETTLE : nat := 41.

(** The settling property of one signed distance, as a test. *)
Definition settled_at (e : Z) : bool :=
  let r := err_iter SETTLE e in
  (err_step r =? r) && (-7 <=? r) && (r <=? 0) &&
  (if 0 <=? e then r =? 0 else r <? 0).

(** The state after power-on reset: I/O registers and the zero-initialised
    global are 0; the uninitialised locals are taken as 0 as well. *)
Definition reset_state : state := mkState 0 0 0 0 0 0 0 0 0 0.

(** Sixteen readings that sum to 17. *)
Definition readings17 : list Z := 2 :: repeat 1 15.

(** The statements of the main loop that drive the two outputs (lines 188,
    192, 195 and 196), on a state that already holds the filter state and
    the setpoint of the cycle. *)
Definition outputs (s : state) : state :=
  Stmt.led_set (Stmt.led_off (Stmt.heater_set (Stmt.heater_off s))).

(** A state holding the given filter state and setpoint. *)
Definition with_temps (smoothed sp : Z) : state :=
  set_smooth smoothed (set_setpoint sp reset_state).

(** A state that begins a cycle with the timer at the sleep threshold, and
    an environment in which every conversion reads 0. *)
Definition at_threshold : state := set_handleTimer SLEEP_THRESHOLD reset_state.
Definition adc_zero : adc_env := adc_of_list [].

(** The run from power-on in which nobody touches the handle: 6001 passes
    of the main loop, then the pass that calls [sleep] and the first loop
    test of [sleep]. *)
Definition idle_run : list event := repeat Tick (Z.to_nat (11 * 6001 + 11)).

(** The number of statements between a program point of the loop of
    [sleep] that lies past the increment of line 138 (or in the off branch)
    and the next loop test. *)
Definition ticks_to_test (l : label) : nat :=
  match l with
  | L139 => 5 | L140 => 4 | L141 => 3 | L142 => 2 | L144 => 2 | L146 => 1
  | _ => 0
  end.

(** The program points counted by [ticks_to_test]. *)
Definition past_increment (l : label) : bool :=
  match l with
  | L139 | L140 | L141 | L142 | L144 | L146 | L135 => true
  | _ => false
  end.

(** A run of the firmware from power-on: set-up, then the main loop under a
    sequence of statements and interrupts. *)
Definition run (adc : adc_env) (s0 : state) (tr : list event) : config :=
  exec adc tr (L183, boot adc s0).

(** None of the 16-bit intermediates of either form of the filter update
    wraps. *)
Definition no_overflow (sm t : Z) : Prop :=
  0 <= Z.shiftl sm 3 < 65536 /\
  0 <= Z.shiftl sm 3 - sm < 65536 /\
  0 <= Z.shiftl sm 3 - sm + t < 65536 /\
  0 <= sm * 7 < 65536 /\
  0 <= sm * 7 + t < 65536.

(** The invariant of the machine: the filter state is a 10-bit value, and
    so is the sample when the filter update is about to run. *)
Definition smooth_ok (c : config) : Prop :=
  0 <= smooth (snd c) <= 1023 /\
  (fst c = L191 -> 0 <= temp (snd c) <= 1023).

(** ** Program points and traces: notions used by the further properties *)

(** The program points of the main loop, lines 183-200. *)
Definition in_main (l : label) : bool :=
  match l with
  | L183 | L184 | L188 | L189 | L190 | L191 | L192 | L195 | L196 | L199
  | L200 => true
  | _ => false
  end.

(** The number of statements between a program point of lines 183-196 and
    the timer test of line 199; [None] elsewhere. *)
Definition to_timer_test (l : label) : option nat :=
  match l with
  | L183 => Some 9%nat | L184 => Some 8%nat | L188 => Some 7%nat
  | L189 => Some 6%nat | L190 => Some 5%nat | L191 => Some 4%nat
  | L192 => Some 3%nat | L195 => Some 2%nat | L196 => Some 1%nat
  | L199 => Some 0%nat
  | _ => None
  end.

(** The statements and the interrupts of a trace. *)
Fixpoint count_ticks (tr : list event) : nat :=
  match tr with
  | [] => 0
  | Tick :: tr' => S (count_ticks tr')
  | Irq :: tr' => count_ticks tr'
  end.

Fixpoint has_irq (tr : list event) : bool :=
  match tr with
  | [] => false
  | Tick :: tr' => has_irq tr'
  | Irq :: _ => true
  end.

(** The interrupt routine applied when [b] holds. *)
Definition reset_if (b : bool) (s : state) : state :=
  if b then PCINT0_vect s else s.

(** The largest value [handleTimer] can have at a program point. *)
Definition timer_bound (l : label) : Z :=
  if in_main l then SLEEP_THRESHOLD + 1
  else match l with
       | L138 => OFF_THRESHOLD - 1
       | L148 => 0
       | _ => OFF_THRESHOLD
       end.

Definition timer_ok (c : config) : Prop :=
  0 <= handleTimer (snd c) <= timer_bound (fst c).



(** Pin configuration: the heater pin is an output, the pull-up of the
    switch pin is on, and in the main loop the LED pin is an output. *)
Definition pins_ok (c : config) : Prop :=
  Z.testbit (DDRB (snd c)) Pin.HEATER = true /\
  Z.testbit (PORTB (snd c)) Pin.SWITCH = true /\
  (in_main (fst c) = true -> Z.testbit (DDRB (snd c)) Pin.LED = true).

(** [k] passes of the main loop that do not call [sleep], with no
    interrupt in between. *)
Fixpoint main_iter (adc : adc_env) (k : nat) (s : state) : state :=
  match k with
  | O => s
  | S k' => main_iter adc k' (snd (main_cycle adc s))
  end.

(** * Proofs *)

(** ** Wrap-around and shifts *)

Lemma u8_small (z : Z) : 0 <= z < 256 -> u8 z = z.
Proof. intros H. unfold u8. now apply Z.mod_small. Qed.

Lemma u16_small (z : Z) : 0 <= z < 65536 -> u16 z = z.
Proof. intros H. unfold u16. now apply Z.mod_small. Qed.

Lemma u32_small (z : Z) : 0 <= z < 4294967296 -> u32 z = z.
Proof. intros H. unfold u32. now apply Z.mod_small. Qed.

Lemma u16_range (z : Z) : 0 <= u16 z < 65536.
Proof. unfold u16. apply Z.mod_pos_bound. lia. Qed.

Lemma shiftr_is_div (z k : Z) : 0 <= k -> Z.shiftr z k = z / 2 ^ k.
Proof. intros H. now apply Z.shiftr_div_pow2. Qed.

Lemma div_range (a b lo hi : Z) :
  0 < b -> lo * b <= a < (hi + 1) * b -> lo <= a / b <= hi.
Proof.
  intros Hb [Hlo Hhi]. split.
  - now apply Z.div_le_lower_bound; [| rewrite Z.mul_comm].
  - assert (a / b < hi + 1); [| lia].
    apply Z.div_lt_upper_bound; [assumption | now rewrite Z.mul_comm].
Qed.

(** ** Setpoint mapping *)

Section Mapping.
Variable p : Z.
Hypothesis p_range : 0 <= p <= 1023.

Lemma mapSetpoint_low : p < 512 -> mapSetpoint p = p * 103 / 512 + 118.
Proof.
  intros Hlt. unfold mapSetpoint, TEMP300, TEMP150.
  rewrite (proj2 (Z.ltb_lt p 512) Hlt).
  change (221 - 118) with 103.
  rewrite (u16_small (p * 103)) by lia.
  rewrite shiftr_is_div by lia. change (2 ^ 9) with 512.
  assert (0 <= p * 103 / 512 <= 102) by (apply div_range; lia).
  rewrite (u32_small (p * 103 / 512)) by lia.
  rewrite u32_small by lia. apply u16_small. lia.
Qed.

Lemma mapSetpoint_high :
  512 <= p -> mapSetpoint p = (p - 512) * 103 / 512 + 221.
Proof.
  intros Hge. unfold mapSetpoint, TEMP450, TEMP300.
  rewrite (proj2 (Z.ltb_ge p 512) Hge).
  change (324 - 221) with 103.
  rewrite (u16_small (p - 512)) by lia.
  rewrite (u16_small ((p - 512) * 103)) by lia.
  rewrite shiftr_is_div by lia. change (2 ^ 9) with 512.
  assert (0 <= (p - 512) * 103 / 512 <= 102) by (apply div_range; lia).
  rewrite (u32_small ((p - 512) * 103 / 512)) by lia.
  rewrite u32_small by lia. apply u16_small. lia.
Qed.

Lemma mapSetpoint_v10_low :
  p < 512 -> mapSetpoint_v10 p = p * 103 / 512 + 118.
Proof.
  intros Hlt. unfold mapSetpoint_v10, TEMP300, TEMP150.
  rewrite (proj2 (Z.ltb_lt p 512) Hlt).
  change (221 - 118) with 103.
  rewrite (u32_small p) by lia.
  rewrite (u32_small (p * 103)) by lia.
  assert (0 <= p * 103 / 512 <= 102) by (apply div_range; lia).
  rewrite u32_small by lia. apply u16_small. lia.
Qed.

Lemma mapSetpoint_v10_high :
  512 <= p -> mapSetpoint_v10 p = (p - 512) * 103 / 511 + 221.
Proof.
  intros Hge. unfold mapSetpoint_v10, TEMP450, TEMP300.
  rewrite (proj2 (Z.ltb_ge p 512) Hge).
  change (324 - 221) with 103.
  rewrite (u16_small (p - 512)) by lia.
  rewrite (u32_small (p - 512)) by lia.
  rewrite (u32_small ((p - 512) * 103)) by lia.
  assert (0 <= (p - 512) * 103 / 511 <= 103) by (apply div_range; lia).
  rewrite u32_small by lia. apply u16_small. lia.
Qed.

Lemma mapSetpoint_is_shift9 : mapSetpoint p = mapSetpoint_shift9 p.
Proof.
  unfold mapSetpoint_shift9, TEMP450, TEMP300, TEMP150.
  change (221 - 118) with 103. change (324 - 221) with 103.
  destruct (Z.ltb_spec p 512) as [Hlt | Hge].
  - rewrite Z.quot_div_nonneg by lia. now apply mapSetpoint_low.
  - rewrite Z.quot_div_nonneg by lia. now apply mapSetpoint_high.
Qed.

Lemma mapSetpoint_v10_is_spec : mapSetpoint_v10 p = mapSetpoint_spec p.
Proof.
  unfold mapSetpoint_spec, TEMP450, TEMP300, TEMP150.
  change (221 - 118) with 103. change (324 - 221) with 103.
  destruct (Z.ltb_spec p 512) as [Hlt | Hge].
  - rewrite Z.quot_div_nonneg by lia. now apply mapSetpoint_v10_low.
  - rewrite Z.quot_div_nonneg by lia. now apply mapSetpoint_v10_high.
Qed.

Lemma mapSetpoint_bounds : 118 <= mapSetpoint p <= 323.
Proof.
  destruct (Z.lt_ge_cases p 512) as [Hlt | Hge].
  - rewrite mapSetpoint_low by assumption.
    assert (0 <= p * 103 / 512 <= 102) by (apply div_range; lia). lia.
  - rewrite mapSetpoint_high by assumption.
    assert (0 <= (p - 512) * 103 / 512 <= 102) by (apply div_range; lia). lia.
Qed.
End Mapping.

(** C1 (as amended).  For every potentiometer reading in 0..1023 the v1.1
    firmware maps [rawPoti < 512] to [rawPoti*(TEMP300-TEMP150)/512 + TEMP150]
    and every other reading to [(rawPoti-512)*(TEMP450-TEMP300)/512 + TEMP300]:
    both segments are divided by 512 (a shift by 9), with truncation.  The
    v1.0 sketch divides the upper segment by 511, as the specification
    writes it.  With the anchors 118/221/324 the v1.1 values at 0, 511, 512
    and 1023 are 118, 220, 221 and 323; the v1.0 value at 1023 is 324. *)
Theorem mapSetpoint_formula (rawPoti : Z) :
  0 <= rawPoti <= 1023 ->
  mapSetpoint rawPoti = mapSetpoint_shift9 rawPoti /\
  mapSetpoint_v10 rawPoti = mapSetpoint_spec rawPoti /\
  (mapSetpoint 0 = 118 /\ mapSetpoint 511 = 220 /\
   mapSetpoint 512 = 221 /\ mapSetpoint 1023 = 323) /\
  (mapSetpoint_v10 0 = 118 /\ mapSetpoint_v10 511 = 220 /\
   mapSetpoint_v10 512 = 221 /\ mapSetpoint_v10 1023 = 324).
Proof.
  intros Hr. split; [| split].
  - now apply mapSetpoint_is_shift9.
  - now apply mapSetpoint_v10_is_spec.
  - repeat split; reflexivity.
Qed.

Lemma mapSetpoint_formula_witness :
  0 <= 700 <= 1023 /\
  mapSetpoint 700 = mapSetpoint_shift9 700 /\
  mapSetpoint_v10 700 = mapSetpoint_spec 700.
Proof.
  split; [lia |].
  destruct (mapSetpoint_formula 700) as (H1 & H2 & _); [lia |].
  split; assumption.
Defined.

(** C1 as stated fails on the v1.1 firmware: the top of the potentiometer
    range maps to 323, one below the 450 degree anchor the specification's
    formula gives. *)
Lemma mapSetpoint_1023_not_324 :
  mapSetpoint 1023 = 323 /\ mapSetpoint_spec 1023 = 324 /\
  mapSetpoint 1023 <> mapSetpoint_spec 1023.
Proof. repeat split. discriminate. Qed.

(** C7.  The setpoint mapping is monotonically non-decreasing over 0..1023,
    also across the breakpoint between 511 and 512 (in both versions of the
    firmware). *)
Theorem mapSetpoint_monotone (rawPoti1 rawPoti2 : Z) :
  0 <= rawPoti1 -> rawPoti1 <= rawPoti2 -> rawPoti2 <= 1023 ->
  mapSetpoint rawPoti1 <= mapSetpoint rawPoti2 /\
  mapSetpoint_v10 rawPoti1 <= mapSetpoint_v10 rawPoti2.
Proof.
  intros H0 H12 H2.
  destruct (Z.lt_ge_cases rawPoti1 512) as [L1 | G1];
    destruct (Z.lt_ge_cases rawPoti2 512) as [L2 | G2]; try lia.
  - rewrite !mapSetpoint_low, !mapSetpoint_v10_low by lia.
    assert (rawPoti1 * 103 / 512 <= rawPoti2 * 103 / 512)
      by (apply Z.div_le_mono; lia).
    lia.
  - rewrite mapSetpoint_low, mapSetpoint_v10_low by lia.
    rewrite mapSetpoint_high, mapSetpoint_v10_high by lia.
    assert (0 <= rawPoti1 * 103 / 512 <= 102) by (apply div_range; lia).
    assert (0 <= (rawPoti2 - 512) * 103 / 512 <= 102) by (apply div_range; lia).
    assert (0 <= (rawPoti2 - 512) * 103 / 511 <= 103) by (apply div_range; lia).
    lia.
  - rewrite !mapSetpoint_high, !mapSetpoint_v10_high by lia.
    assert ((rawPoti1 - 512) * 103 / 512 <= (rawPoti2 - 512) * 103 / 512)
      by (apply Z.div_le_mono; lia).
    assert ((rawPoti1 - 512) * 103 / 511 <= (rawPoti2 - 512) * 103 / 511)
      by (apply Z.div_le_mono; lia).
    lia.
Qed.

Lemma mapSetpoint_monotone_witness :
  mapSetpoint 511 <= mapSetpoint 512 /\ mapSetpoint_v10 511 <= mapSetpoint_v10 512.
Proof. apply (mapSetpoint_monotone 511 512); lia. Defined.

(** ** Temperature filter *)

Lemma lowpass_exact (s t : Z) :
  0 <= s <= 1023 -> 0 <= t <= 1023 -> lowpass s t = (s * 7 + t) / 8.
Proof.
  intros Hs Ht. unfold lowpass.
  rewrite Z.shiftl_mul_pow2 by lia. change (2 ^ 3) with 8.
  rewrite (u16_small (s * 8)) by lia.
  rewrite (u16_small (s * 8 - s)) by lia.
  rewrite u16_small by lia.
  rewrite shiftr_is_div by lia. change (2 ^ 3) with 8.
  f_equal. lia.
Qed.

Lemma lowpass_is_spec (s t : Z) :
  0 <= s <= 1023 -> 0 <= t <= 1023 -> lowpass s t = lowpass_spec s t.
Proof.
  intros Hs Ht. unfold lowpass_spec. rewrite Z.quot_div_nonneg by lia.
  now apply lowpass_exact.
Qed.

(** The two source variants agree on every pair of integers, wrapped or
    not: the 16-bit sums are equal modulo 65536. *)
Lemma lowpass_versions_agree (s t : Z) : lowpass s t = lowpass_v10 s t.
Proof.
  unfold lowpass, lowpass_v10, u16.
  rewrite Z.shiftl_mul_pow2 by lia. change (2 ^ 3) with 8.
  rewrite shiftr_is_div by lia. change (2 ^ 3) with 8.
  rewrite Zminus_mod_idemp_l, !Zplus_mod_idemp_l.
  do 2 f_equal. lia.
Qed.

Lemma lowpass_range (s t : Z) :
  0 <= s <= 1023 -> 0 <= t <= 1023 -> 0 <= lowpass s t <= 1023.
Proof.
  intros Hs Ht. rewrite lowpass_exact by assumption.
  apply div_range; lia.
Qed.

(** The new state lies between the old state and the sample. *)
Lemma lowpass_between (s t : Z) :
  0 <= s <= 1023 -> 0 <= t <= 1023 ->
  Z.min s t <= lowpass s t <= Z.max s t.
Proof.
  intros Hs Ht. rewrite lowpass_exact by assumption.
  apply div_range; lia.
Qed.

Lemma lowpass_error (s raw : Z) :
  0 <= s <= 1023 -> 0 <= raw <= 1023 ->
  lowpass s raw = raw + err_step (s - raw).
Proof.
  intros Hs Hr. rewrite lowpass_exact by assumption. unfold err_step.
  replace (s * 7 + raw) with (7 * (s - raw) + raw * 8) by lia.
  rewrite Z.div_add by lia. lia.
Qed.

Lemma lowpass_iter_error (n : nat) : forall s raw,
  0 <= s <= 1023 -> 0 <= raw <= 1023 ->
  lowpass_iter n s raw = raw + err_iter n (s - raw).
Proof.
  induction n as [| k IH]; intros s raw Hs Hr; simpl.
  - lia.
  - pose proof (lowpass_between s raw Hs Hr) as Hb.
    rewrite IH by lia.
    rewrite (lowpass_error s raw Hs Hr). do 2 f_equal. lia.
Qed.

Lemma lowpass_iter_between (n : nat) : forall s raw,
  0 <= s <= 1023 -> 0 <= raw <= 1023 ->
  Z.min s raw <= lowpass_iter n s raw <= Z.max s raw.
Proof.
  induction n as [| k IH]; intros s raw Hs Hr; simpl.
  - lia.
  - pose proof (lowpass_between s raw Hs Hr) as Hb.
    assert (Hs' : 0 <= lowpass s raw <= 1023) by lia.
    specialize (IH (lowpass s raw) raw Hs' Hr). lia.
Qed.

Lemma lowpass_iter_add (n k : nat) (s raw : Z) :
  lowpass_iter (n + k) s raw = lowpass_iter k (lowpass_iter n s raw) raw.
Proof.
  revert s. induction n as [| n IH]; intros s; simpl; [reflexivity | apply IH].
Qed.

Lemma lowpass_iter_fixed (k : nat) (x raw : Z) :
  lowpass x raw = x -> lowpass_iter k x raw = x.
Proof.
  intros Hx. induction k as [| k IH]; simpl; [reflexivity |].
  now rewrite Hx.
Qed.

Lemma settled_all :
  forallb (fun k => settled_at (Z.of_nat k - 1023)) (seq 0 2047) = true.
Proof. vm_compute. reflexivity. Qed.

Lemma settled_at_true (e : Z) : -1023 <= e <= 1023 -> settled_at e = true.
Proof.
  intros He.
  assert (Hin : In (Z.to_nat (e + 1023)) (seq 0 2047)) by (apply in_seq; lia).
  pose proof (proj1 (forallb_forall _ _) settled_all _ Hin) as H.
  cbv beta in H. rewrite Z2Nat.id in H by lia.
  now replace (e + 1023 - 1023) with e in H by lia.
Qed.

Lemma err_settles (e : Z) :
  -1023 <= e <= 1023 ->
  err_step (err_iter SETTLE e) = err_iter SETTLE e /\
  -7 <= err_iter SETTLE e <= 0 /\
  (0 <= e -> err_iter SETTLE e = 0) /\
  (e < 0 -> err_iter SETTLE e < 0).
Proof.
  intros He. pose proof (settled_at_true e He) as H.
  unfold settled_at in H. cbv zeta in H.
  apply andb_prop in H. destruct H as [H H4].
  apply andb_prop in H. destruct H as [H H3].
  apply andb_prop in H. destruct H as [H1 H2].
  apply Z.eqb_eq in H1. apply Z.leb_le in H2. apply Z.leb_le in H3.
  repeat split; try assumption.
  - intros Hp. rewrite (proj2 (Z.leb_le 0 e) Hp) in H4. now apply Z.eqb_eq.
  - intros Hn. rewrite (proj2 (Z.leb_gt 0 e) Hn) in H4. now apply Z.ltb_lt.
Qed.

(** Once the distance has settled after [N] updates, the state has settled
    after every [n >= N] updates. *)
Lemma lowpass_iter_settled (N n : nat) (s raw : Z) :
  0 <= s <= 1023 -> 0 <= raw <= 1023 -> (N <= n)%nat ->
  err_step (err_iter N (s - raw)) = err_iter N (s - raw) ->
  lowpass_iter n s raw = raw + err_iter N (s - raw) /\
  lowpass (lowpass_iter n s raw) raw = lowpass_iter n s raw.
Proof.
  intros Hs Hr Hn Hfix.
  pose proof (lowpass_iter_between N s raw Hs Hr) as Hb.
  pose proof (lowpass_iter_error N s raw Hs Hr) as Hx.
  assert (Hf : lowpass (lowpass_iter N s raw) raw = lowpass_iter N s raw).
  { rewrite lowpass_error by lia. rewrite Hx at 1.
    replace (raw + err_iter N (s - raw) - raw)
      with (err_iter N (s - raw)) by lia.
    rewrite Hfix. symmetry. exact Hx. }
  destruct (Nat.le_exists_sub N n Hn) as (k & Hk & _).
  rewrite Nat.add_comm in Hk. subst n.
  rewrite lowpass_iter_add, (lowpass_iter_fixed k _ _ Hf).
  split; [exact Hx | exact Hf].
Qed.

(** C5 (as amended).  Under a constant raw sample in 0..1023 and from every
    start in 0..1023, the filter state is a fixed point of the update after
    at most 41 updates and stays there.  The fixed point lies in
    [raw-7 .. raw]: it is exactly [raw] when the start was at or above
    [raw], and it stays strictly below [raw] when the start was below.
    Once the state equals [raw] the update leaves it fixed. *)
Theorem lowpass_settles (s raw : Z) (n : nat) :
  0 <= s <= 1023 -> 0 <= raw <= 1023 -> (SETTLE <= n)%nat ->
  lowpass (lowpass_iter n s raw) raw = lowpass_iter n s raw /\
  raw - 7 <= lowpass_iter n s raw <= raw /\
  (raw <= s -> lowpass_iter n s raw = raw) /\
  (s < raw -> lowpass_iter n s raw < raw) /\
  lowpass raw raw = raw.
Proof.
  intros Hs Hr Hn.
  destruct (err_settles (s - raw)) as (Hfix & Hband & Habove & Hbelow); [lia |].
  destruct (lowpass_iter_settled SETTLE n s raw Hs Hr Hn Hfix) as [Hx Hf].
  split; [exact Hf |].
  generalize dependent (err_iter SETTLE (s - raw)). intros e Hfix Hband Habove Hbelow Hx.
  rewrite Hx. clear Hf Hx.
  split; [lia |]. split; [| split].
  - intros Hge. specialize (Habove ltac:(lia)). lia.
  - intros Hlt. specialize (Hbelow ltac:(lia)). lia.
  - rewrite lowpass_exact by lia.
    replace (raw * 7 + raw) with (raw * 8) by lia. apply Z.div_mul. lia.
Qed.

Lemma lowpass_settles_witness :
  0 <= 1023 <= 1023 /\ 0 <= 300 <= 1023 /\ (SETTLE <= 41)%nat /\
  lowpass_iter 41 1023 300 = 300.
Proof.
  split; [lia |]. split; [lia |]. split; [apply le_n |].
  destruct (lowpass_settles 1023 300 41) as (_ & _ & H & _);
    [lia | lia | apply le_n |].
  apply H. lia.
Defined.

(** C5 as stated fails: from start 0 under the constant sample 7 the state
    never moves, so it never reaches the sample. *)
Lemma lowpass_stuck_below : ~ (exists n : nat, lowpass_iter n 0 7 = 7).
Proof.
  assert (H : forall n, lowpass_iter n 0 7 = 0).
  { induction n as [| n IH]; [reflexivity |]. simpl.
    change (lowpass 0 7) with 0. exact IH. }
  intros [n Hn]. rewrite H in Hn. discriminate.
Qed.

(** C8.  For every state and sample in 0..1023 the shift form of the update
    in TinySolder.ino and the arithmetic form of the v1.0 sketch both
    compute the specification's [(smooth*7 + temp)/8] with truncating
    division; hence they agree with each other. *)
Theorem lowpass_refines_spec (smooth temp : Z) :
  0 <= smooth <= 1023 -> 0 <= temp <= 1023 ->
  lowpass smooth temp = lowpass_spec smooth temp /\
  lowpass_v10 smooth temp = lowpass_spec smooth temp /\
  lowpass smooth temp = lowpass_v10 smooth temp.
Proof.
  intros Hs Ht.
  pose proof (lowpass_is_spec smooth temp Hs Ht) as H.
  split; [exact H |]. split.
  - now rewrite <- lowpass_versions_agree.
  - apply lowpass_versions_agree.
Qed.

Lemma lowpass_refines_spec_witness :
  lowpass 1023 1 = lowpass_spec 1023 1 /\
  lowpass_v10 1023 1 = lowpass_spec 1023 1 /\
  lowpass 1023 1 = lowpass_v10 1023 1.
Proof. apply (lowpass_refines_spec 1023 1); lia. Defined.

(** ** Analog sampler *)

Lemma adc_sum_range (adc : adc_env) (port : Z) (n : nat) : forall c,
  (forall k, (c <= k < c + n)%nat -> 0 <= adc port k <= 1023) ->
  0 <= adc_sum adc port n c <= 1023 * Z.of_nat n.
Proof.
  induction n as [| n IH]; intros c Hr; simpl adc_sum.
  - lia.
  - assert (H0 : 0 <= adc port c <= 1023) by (apply Hr; lia).
    assert (H1 : 0 <= adc_sum adc port n (S c) <= 1023 * Z.of_nat n)
      by (apply IH; intros k Hk; apply Hr; lia).
    lia.
Qed.

(** The accumulator never wraps while the readings are 10-bit values. *)
Lemma ADC_loop_sum (adc : adc_env) (port : Z) (i : nat) : forall result c,
  (forall k, (c <= k < c + i)%nat -> 0 <= adc port k <= 1023) ->
  0 <= result -> result + 1023 * Z.of_nat i < 65536 ->
  ADC_loop adc port i result c = (result + adc_sum adc port i c, (c + i)%nat).
Proof.
  induction i as [| i IH]; intros result c Hr H0 Hfit; simpl.
  - f_equal; lia.
  - assert (Hc : 0 <= adc port c <= 1023) by (apply Hr; lia).
    rewrite u16_small by lia.
    rewrite IH; [f_equal; lia | intros k Hk; apply Hr; lia | lia | lia].
Qed.

(** The upward-counting loop of [denoiseAnalog] takes the same conversions
    as the downward-counting loop of [ADC_read], and 16 units of fuel are
    enough for it to finish. *)
Lemma denoise_loop_ADC_loop (adc : adc_env) (port : Z) (fuel : nat) :
  forall i result c,
  0 <= i <= 16 -> (Z.to_nat (16 - i) <= fuel)%nat ->
  denoise_loop adc port fuel i result c =
  Some (ADC_loop adc port (Z.to_nat (16 - i)) result c).
Proof.
  induction fuel as [| f IH]; intros i result c Hi Hf.
  - assert (i = 16) by lia. subst i. reflexivity.
  - change (denoise_loop adc port (S f) i result c)
      with (if i <? 16
            then denoise_loop adc port f (u8 (i + 1))
                              (u16 (result + adc port c)) (S c)
            else Some (result, c)).
    destruct (Z.ltb_spec i 16) as [Hlt | Hge].
    + rewrite u8_small by lia. rewrite IH by lia.
      replace (Z.to_nat (16 - i)) with (S (Z.to_nat (16 - (i + 1)))) by lia.
      reflexivity.
    + assert (i = 16) by lia. subst i. reflexivity.
Qed.

Lemma denoiseAnalog_ADC_read (adc : adc_env) (port : Z) (s : state) :
  denoiseAnalog adc port s = Some (ADC_read adc port s).
Proof.
  unfold denoiseAnalog, ADC_read.
  rewrite denoise_loop_ADC_loop by (simpl; lia).
  change (Z.to_nat (16 - 0)) with 16%nat.
  now destruct (ADC_loop adc (ADMUX (set_ADMUX (u8 port) s)) 16 0
                         (conv (set_ADMUX (u8 port) s))).
Qed.

Lemma ADC_read_result (adc : adc_env) (port : Z) (s : state) :
  (forall k, (conv s <= k < conv s + 16)%nat -> 0 <= adc (u8 port) k <= 1023) ->
  ADC_read adc port s =
  (adc_sum adc (u8 port) 16 (conv s) / 16,
   set_conv (conv s + 16) (set_ADMUX (u8 port) s)).
Proof.
  intros Hr. unfold ADC_read.
  change (ADMUX (set_ADMUX (u8 port) s)) with (u8 port).
  change (conv (set_ADMUX (u8 port) s)) with (conv s).
  rewrite ADC_loop_sum by (assumption || lia).
  rewrite shiftr_is_div by lia. reflexivity.
Qed.

Lemma ADC_read_range (adc : adc_env) (port : Z) (s : state) :
  (forall k, (conv s <= k < conv s + 16)%nat -> 0 <= adc (u8 port) k <= 1023) ->
  0 <= fst (ADC_read adc port s) <= 1023.
Proof.
  intros Hr. rewrite ADC_read_result by assumption. cbn [fst].
  pose proof (adc_sum_range adc (u8 port) 16 (conv s) Hr) as Hs.
  change (Z.of_nat 16) with 16 in Hs.
  apply div_range; lia.
Qed.

(** C6.  When the 16 conversions that [ADC_read] takes are 10-bit values,
    it returns the floor of their sum divided by 16, having taken exactly
    16 consecutive conversions on the selected channel; [denoiseAnalog]
    of the older version returns the same.  Sixteen readings that sum to 17
    give 1, not 2. *)
Theorem ADC_read_mean (adc : adc_env) (port : Z) (s : state) :
  (forall k, (conv s <= k < conv s + 16)%nat -> 0 <= adc (u8 port) k <= 1023) ->
  fst (ADC_read adc port s) = adc_sum adc (u8 port) 16 (conv s) / 16 /\
  conv (snd (ADC_read adc port s)) = (conv s + 16)%nat /\
  denoiseAnalog adc port s = Some (ADC_read adc port s) /\
  (adc_sum (adc_of_list readings17) 3 16 0 = 17 /\
   fst (ADC_read (adc_of_list readings17) 3 reset_state) = 1).
Proof.
  intros Hr. rewrite ADC_read_result by assumption.
  split; [reflexivity |]. split; [reflexivity |]. split.
  - rewrite <- ADC_read_result by assumption. apply denoiseAnalog_ADC_read.
  - split; reflexivity.
Qed.

Lemma ADC_read_mean_witness :
  fst (ADC_read (adc_of_list readings17) 3 reset_state) =
  adc_sum (adc_of_list readings17) (u8 3) 16 (conv reset_state) / 16.
Proof.
  refine (proj1 (ADC_read_mean (adc_of_list readings17) 3 reset_state _)).
  intros k Hk. unfold adc_of_list, readings17. simpl in Hk.
  do 16 (destruct k as [| k]; [simpl; lia |]). lia.
Defined.

(** ** Port bits *)

(** Case analysis on every condition of the goal. *)
Ltac split_ifs :=
  repeat match goal with
         | |- context [if ?b then _ else _] => destruct b
         end.

Lemma testbit_u8 (z n : Z) : 0 <= n < 8 -> Z.testbit (u8 z) n = Z.testbit z n.
Proof.
  intros Hn. unfold u8. change 256 with (2 ^ 8).
  apply Z.mod_pow2_bits_low. lia.
Qed.

Lemma testbit_mask (x y : Z) :
  0 <= x -> Z.testbit (Z.shiftl 1 x) y = (x =? y).
Proof. intros Hx. rewrite Z.shiftl_1_l. now apply Z.pow2_bits_eqb. Qed.

Lemma pinHigh_testbit (x y : Z) (s : state) :
  0 <= x -> 0 <= y < 8 ->
  Z.testbit (PORTB (pinHigh x s)) y = Z.testbit (PORTB s) y || (x =? y).
Proof.
  intros Hx Hy. unfold pinHigh. cbn [PORTB set_PORTB].
  now rewrite testbit_u8, Z.lor_spec, testbit_mask.
Qed.

Lemma pinLow_testbit (x y : Z) (s : state) :
  0 <= x -> 0 <= y < 8 ->
  Z.testbit (PORTB (pinLow x s)) y = Z.testbit (PORTB s) y && negb (x =? y).
Proof.
  intros Hx Hy. unfold pinLow. cbn [PORTB set_PORTB].
  rewrite testbit_u8, Z.land_spec, Z.lnot_spec, testbit_mask by lia.
  reflexivity.
Qed.

Lemma pinToggle_testbit (x y : Z) (s : state) :
  0 <= x -> 0 <= y < 8 ->
  Z.testbit (PORTB (pinToggle x s)) y = xorb (Z.testbit (PORTB s) y) (x =? y).
Proof.
  intros Hx Hy. unfold pinToggle. cbn [PORTB set_PORTB].
  now rewrite testbit_u8, Z.lxor_spec, testbit_mask.
Qed.

(** ** Heater and status LED *)

(** Read a bit of PORTB through the pin macros. *)
Ltac port_bits :=
  repeat (rewrite ?pinHigh_testbit, ?pinLow_testbit
            by (unfold Pin.HEATER, Pin.LED; lia));
  unfold Pin.HEATER, Pin.LED; cbn [Z.eqb negb];
  rewrite ?andb_false_r, ?andb_true_r, ?orb_false_r, ?orb_true_r.

Lemma outputs_heater (s : state) :
  heaterOn (outputs s) = (smooth s <? setpoint s).
Proof.
  unfold outputs, heaterOn, Stmt.led_set, Stmt.led_off, Stmt.heater_set,
    Stmt.heater_off.
  change (smooth (pinLow Pin.HEATER s)) with (smooth s).
  change (setpoint (pinLow Pin.HEATER s)) with (setpoint s).
  destruct (smooth s <? setpoint s); split_ifs; port_bits; reflexivity.
Qed.

Lemma outputs_status (s : state) :
  statusOn (outputs s) =
  (u16 (smooth s + 10) >? setpoint s) && (u16 (setpoint s + 10) >? smooth s).
Proof.
  unfold outputs, statusOn, Stmt.led_set, Stmt.led_off, Stmt.heater_set,
    Stmt.heater_off.
  change (smooth (pinLow Pin.HEATER s)) with (smooth s).
  change (setpoint (pinLow Pin.HEATER s)) with (setpoint s).
  destruct (smooth s <? setpoint s).
  - change (smooth (pinLow Pin.LED (pinHigh Pin.HEATER (pinLow Pin.HEATER s))))
      with (smooth s).
    change (setpoint (pinLow Pin.LED (pinHigh Pin.HEATER (pinLow Pin.HEATER s))))
      with (setpoint s).
    destruct ((u16 (smooth s + 10) >? setpoint s) &&
              (u16 (setpoint s + 10) >? smooth s)); port_bits; reflexivity.
  - change (smooth (pinLow Pin.LED (pinLow Pin.HEATER s))) with (smooth s).
    change (setpoint (pinLow Pin.LED (pinLow Pin.HEATER s))) with (setpoint s).
    destruct ((u16 (smooth s + 10) >? setpoint s) &&
              (u16 (setpoint s + 10) >? smooth s)); port_bits; reflexivity.
Qed.

(** Shutting the heater off commutes with sampling and filtering, so the
    outputs at the end of lines 183-196 are those of [outputs] on the state
    that holds the new setpoint and filter state. *)
Lemma heater_off_read_temp (adc : adc_env) (t : state) :
  Stmt.read_temp adc (Stmt.heater_off t) =
  Stmt.heater_off (Stmt.read_temp adc t).
Proof.
  destruct t as [pb dd mx ht po te sm sp st cv].
  unfold Stmt.read_temp, Stmt.heater_off, ADC_read, pinLow, set_PORTB,
    set_ADMUX, set_conv, set_temp.
  cbn [PORTB DDRB ADMUX handleTimer poti temp smooth setpoint sleep_temp conv].
  destruct (ADC_loop adc (u8 (pinADC Pin.TEMP)) 16 0 cv) as [r c].
  reflexivity.
Qed.

Lemma heater_off_smooth_temp (t : state) :
  Stmt.smooth_temp (Stmt.heater_off t) = Stmt.heater_off (Stmt.smooth_temp t).
Proof. destruct t. reflexivity. Qed.

Lemma control_outputs (adc : adc_env) (s : state) :
  control adc s =
  outputs (Stmt.smooth_temp (Stmt.read_temp adc (Stmt.map_setpoint
            (Stmt.read_poti adc s)))).
Proof.
  unfold control, outputs.
  now rewrite heater_off_read_temp, heater_off_smooth_temp.
Qed.

Lemma outputs_temps (s : state) :
  smooth (outputs s) = smooth s /\ setpoint (outputs s) = setpoint s.
Proof.
  unfold outputs, Stmt.led_set, Stmt.led_off, Stmt.heater_set, Stmt.heater_off.
  split; split_ifs; reflexivity.
Qed.

(** At the end of lines 183-196 the two outputs reflect the comparison of
    the filter state and the setpoint computed in this pass. *)
Lemma control_decision (adc : adc_env) (s : state) :
  heaterOn (control adc s) =
    (smooth (control adc s) <? setpoint (control adc s)) /\
  statusOn (control adc s) =
    ((u16 (smooth (control adc s) + 10) >? setpoint (control adc s)) &&
     (u16 (setpoint (control adc s) + 10) >? smooth (control adc s))).
Proof.
  rewrite control_outputs.
  generalize (Stmt.smooth_temp (Stmt.read_temp adc (Stmt.map_setpoint
                (Stmt.read_poti adc s)))).
  intros t. destruct (outputs_temps t) as [E1 E2].
  rewrite outputs_heater, outputs_status, E1, E2. split; reflexivity.
Qed.

(** C2.  For every filter state and setpoint (any 16-bit values below
    65526, where [x + 10] does not wrap; the reachable values are at most
    1023) the heater is on exactly when [smoothed < setpoint], and the
    status LED is on exactly when [smoothed + 10 > setpoint] and
    [setpoint + 10 > smoothed], all strict.  So 220/221 gives heater on and
    status on, 200/221 gives heater on and status off, 231/221 gives status
    off, and at equality the heater is off. *)
Theorem heater_decision (s : state) :
  0 <= smooth s < 65526 -> 0 <= setpoint s < 65526 ->
  heaterOn (outputs s) = (smooth s <? setpoint s) /\
  statusOn (outputs s) =
    ((smooth s + 10 >? setpoint s) && (setpoint s + 10 >? smooth s)) /\
  (heaterOn (outputs (with_temps 220 221)) = true /\
   statusOn (outputs (with_temps 220 221)) = true) /\
  (heaterOn (outputs (with_temps 200 221)) = true /\
   statusOn (outputs (with_temps 200 221)) = false) /\
  statusOn (outputs (with_temps 231 221)) = false /\
  heaterOn (outputs (with_temps 221 221)) = false.
Proof.
  intros Hs Hp. split; [apply outputs_heater |]. split.
  - rewrite outputs_status. now rewrite !u16_small by lia.
  - repeat split; reflexivity.
Qed.

Lemma heater_decision_witness :
  heaterOn (outputs (with_temps 211 221)) = (211 <? 221) /\
  statusOn (outputs (with_temps 211 221)) =
    ((211 + 10 >? 221) && (221 + 10 >? 211)).
Proof.
  destruct (heater_decision (with_temps 211 221)) as (H1 & H2 & _);
    [simpl; lia | simpl; lia |].
  split; [exact H1 | exact H2].
Defined.

(** ** What each statement leaves alone *)

Lemma ADC_read_eq (adc : adc_env) (port : Z) (s : state) :
  ADC_read adc port s =
  (fst (ADC_read adc port s),
   set_conv (conv (snd (ADC_read adc port s))) (set_ADMUX (u8 port) s)).
Proof.
  unfold ADC_read.
  destruct (ADC_loop adc (ADMUX (set_ADMUX (u8 port) s)) 16 0
                     (conv (set_ADMUX (u8 port) s))) as [r c].
  reflexivity.
Qed.

Lemma read_poti_eq (adc : adc_env) (s : state) :
  Stmt.read_poti adc s =
  set_poti (fst (ADC_read adc (pinADC Pin.POTI) s))
    (set_conv (conv (snd (ADC_read adc (pinADC Pin.POTI) s)))
       (set_ADMUX (u8 (pinADC Pin.POTI)) s)).
Proof. unfold Stmt.read_poti. rewrite ADC_read_eq at 1. reflexivity. Qed.

Lemma read_temp_eq (adc : adc_env) (s : state) :
  Stmt.read_temp adc s =
  set_temp (fst (ADC_read adc (pinADC Pin.TEMP) s))
    (set_conv (conv (snd (ADC_read adc (pinADC Pin.TEMP) s)))
       (set_ADMUX (u8 (pinADC Pin.TEMP)) s)).
Proof. unfold Stmt.read_temp. rewrite ADC_read_eq at 1. reflexivity. Qed.

Lemma sleep_read_eq (adc : adc_env) (s : state) :
  Stmt.sleep_read adc s =
  set_sleep_temp (fst (ADC_read adc (pinADC Pin.TEMP) s))
    (set_conv (conv (snd (ADC_read adc (pinADC Pin.TEMP) s)))
       (set_ADMUX (u8 (pinADC Pin.TEMP)) s)).
Proof. unfold Stmt.sleep_read. rewrite ADC_read_eq at 1. reflexivity. Qed.

(** Statements other than the timer updates leave [handleTimer] alone. *)
Lemma handleTimer_frame (adc : adc_env) (s : state) :
  handleTimer (Stmt.read_poti adc s) = handleTimer s /\
  handleTimer (Stmt.map_setpoint s) = handleTimer s /\
  handleTimer (Stmt.heater_off s) = handleTimer s /\
  handleTimer (Stmt.read_temp adc s) = handleTimer s /\
  handleTimer (Stmt.smooth_temp s) = handleTimer s /\
  handleTimer (Stmt.heater_set s) = handleTimer s /\
  handleTimer (Stmt.led_off s) = handleTimer s /\
  handleTimer (Stmt.led_set s) = handleTimer s /\
  handleTimer (Stmt.sleep_read adc s) = handleTimer s /\
  handleTimer (Stmt.sleep_heat s) = handleTimer s /\
  handleTimer (Stmt.led_toggle s) = handleTimer s /\
  handleTimer (Stmt.led_input s) = handleTimer s /\
  handleTimer (Stmt.led_output s) = handleTimer s.
Proof.
  rewrite read_poti_eq, read_temp_eq, sleep_read_eq.
  unfold Stmt.heater_set, Stmt.led_set, Stmt.sleep_heat.
  repeat split; split_ifs; reflexivity.
Qed.

(** Statements other than the filter update leave [smooth] alone. *)
Lemma smooth_frame (adc : adc_env) (s : state) :
  smooth (Stmt.read_poti adc s) = smooth s /\
  smooth (Stmt.map_setpoint s) = smooth s /\
  smooth (Stmt.heater_off s) = smooth s /\
  smooth (Stmt.read_temp adc s) = smooth s /\
  smooth (Stmt.heater_set s) = smooth s /\
  smooth (Stmt.led_off s) = smooth s /\
  smooth (Stmt.led_set s) = smooth s /\
  smooth (snd (Stmt.timer_tick s)) = smooth s /\
  smooth (Stmt.sleep_inc s) = smooth s /\
  smooth (Stmt.sleep_read adc s) = smooth s /\
  smooth (Stmt.sleep_heat s) = smooth s /\
  smooth (Stmt.led_toggle s) = smooth s /\
  smooth (Stmt.led_input s) = smooth s /\
  smooth (Stmt.led_output s) = smooth s /\
  smooth (PCINT0_vect s) = smooth s.
Proof.
  rewrite read_poti_eq, read_temp_eq, sleep_read_eq.
  unfold Stmt.heater_set, Stmt.led_set, Stmt.sleep_heat.
  repeat split; split_ifs; reflexivity.
Qed.

(** Peel the statements off a [handleTimer (f (g ... s))] goal. *)
Ltac timer_frame adc :=
  repeat match goal with
         | |- handleTimer (?f ?x) = _ =>
             let H := fresh in
             pose proof (handleTimer_frame adc x) as H;
             decompose [and] H; clear H;
             match goal with
             | E : handleTimer (f x) = handleTimer x |- _ => rewrite E
             end;
             repeat match goal with E : handleTimer _ = _ |- _ => clear E end
         end.

Lemma control_handleTimer (adc : adc_env) (s : state) :
  handleTimer (control adc s) = handleTimer s.
Proof. unfold control. timer_frame adc. reflexivity. Qed.

(** ** The main loop and the entry into [sleep] *)

(** Ten statements take the machine from line 183 to the decision of line
    199; the straight-line reading [main_cycle] describes them. *)
Lemma exec_main_cycle (adc : adc_env) (s : state) :
  exec adc (repeat Tick 10) (L183, s) =
  (if fst (main_cycle adc s) then L135 else L200, snd (main_cycle adc s)).
Proof.
  unfold exec, main_cycle, control.
  cbn [repeat fold_left deliver step Stmt.timer_tick fst snd].
  reflexivity.
Qed.

Lemma exec_app (adc : adc_env) (tr1 tr2 : list event) (c : config) :
  exec adc (tr1 ++ tr2) c = exec adc tr2 (exec adc tr1 c).
Proof. unfold exec. apply fold_left_app. Qed.

Lemma main_cycle_timer (adc : adc_env) (s : state) :
  fst (main_cycle adc s) = (handleTimer s >? SLEEP_THRESHOLD) /\
  handleTimer (snd (main_cycle adc s)) = u16 (handleTimer s + 1).
Proof.
  unfold main_cycle, Stmt.timer_tick. cbn [fst snd set_handleTimer handleTimer].
  now rewrite control_handleTimer.
Qed.

(** C3 (as amended).  The sleep threshold is 6000 cycles.  A pass of the
    main loop that begins with the timer at most at the threshold runs the
    control statements, adds one to the timer and stays in the main loop
    (so a pass beginning at the threshold itself stays Working, like one
    beginning just below it); a pass that begins with the timer above the
    threshold - first at threshold + 1 - adds one to the timer and enters
    the loop of [sleep]. *)
Theorem sleep_entry (adc : adc_env) (s : state) :
  0 <= handleTimer s < 65535 ->
  SLEEP_THRESHOLD = 6000 /\
  fst (main_cycle adc s) = (handleTimer s >? SLEEP_THRESHOLD) /\
  handleTimer (snd (main_cycle adc s)) = handleTimer s + 1 /\
  exec adc (repeat Tick 11) (L183, s) =
    (if handleTimer s >? SLEEP_THRESHOLD then L136 else L183,
     snd (main_cycle adc s)).
Proof.
  intros Hr. destruct (main_cycle_timer adc s) as [Hb Ht].
  rewrite u16_small in Ht by lia.
  split; [reflexivity |]. split; [exact Hb |]. split; [exact Ht |].
  change (repeat Tick 11) with (repeat Tick 10 ++ [Tick]).
  rewrite exec_app, exec_main_cycle, Hb.
  destruct (handleTimer s >? SLEEP_THRESHOLD).
  - unfold exec. cbn [fold_left deliver step]. unfold Stmt.sleep_cond.
    rewrite Ht. destruct (Z.eqb_spec (handleTimer s + 1) 0) as [E | _]; [lia |].
    reflexivity.
  - reflexivity.
Qed.

Lemma sleep_entry_witness :
  0 <= handleTimer (set_handleTimer 6001 reset_state) < 65535 /\
  exec adc_zero (repeat Tick 11) (L183, set_handleTimer 6001 reset_state) =
    (L136, snd (main_cycle adc_zero (set_handleTimer 6001 reset_state))).
Proof.
  split; [simpl; lia |].
  destruct (sleep_entry adc_zero (set_handleTimer 6001 reset_state))
    as (_ & _ & _ & H); [simpl; lia |].
  exact H.
Defined.

(** C3 as stated fails: a pass that begins with the timer at exactly the
    threshold does not enter [sleep]; it returns to line 183 with the timer
    one above the threshold. *)
Lemma no_sleep_at_threshold :
  handleTimer at_threshold = SLEEP_THRESHOLD /\
  fst (main_cycle adc_zero at_threshold) = false /\
  fst (exec adc_zero (repeat Tick 11) (L183, at_threshold)) = L183 /\
  handleTimer (snd (exec adc_zero (repeat Tick 11) (L183, at_threshold))) =
    SLEEP_THRESHOLD + 1.
Proof. vm_compute. repeat split. Qed.

(** ** The off state *)

Lemma sleep_body_off (adc : adc_env) (s : state) :
  OFF_THRESHOLD <= handleTimer s ->
  sleep_body adc s = Stmt.led_input (Stmt.heater_off s).
Proof.
  intros Hoff. unfold sleep_body, Stmt.not_off.
  change (handleTimer (Stmt.heater_off s)) with (handleTimer s).
  now rewrite (proj2 (Z.ltb_ge _ _) Hoff).
Qed.

Lemma off_body_effect (s : state) :
  handleTimer (Stmt.led_input (Stmt.heater_off s)) = handleTimer s /\
  conv (Stmt.led_input (Stmt.heater_off s)) = conv s /\
  heaterOn (Stmt.led_input (Stmt.heater_off s)) = false.
Proof.
  split; [reflexivity |]. split; [reflexivity |].
  unfold heaterOn, Stmt.led_input, Stmt.heater_off.
  change (PORTB (pinInput Pin.LED (pinLow Pin.HEATER s)))
    with (PORTB (pinLow Pin.HEATER s)).
  rewrite pinLow_testbit by (unfold Pin.HEATER; lia).
  rewrite Z.eqb_refl. apply andb_false_r.
Qed.

Lemma sleep_iter_off (adc : adc_env) (n : nat) : forall s,
  OFF_THRESHOLD <= handleTimer s ->
  handleTimer (sleep_iter adc n s) = handleTimer s /\
  conv (sleep_iter adc n s) = conv s.
Proof.
  induction n as [| n IH]; intros s Hoff; cbn [sleep_iter].
  - split; reflexivity.
  - rewrite sleep_body_off by assumption.
    destruct (off_body_effect s) as (Ht & Hc & _).
    destruct (IH (Stmt.led_input (Stmt.heater_off s))) as [IHt IHc]; [lia |].
    split; congruence.
Qed.

(** In the off state one pass of the loop of [sleep] is five statements:
    lines 135, 136, 137, 144 and 146. *)
Lemma exec_off_body (adc : adc_env) (s : state) :
  OFF_THRESHOLD <= handleTimer s ->
  exec adc (repeat Tick 5) (L135, s) = (L135, sleep_body adc s).
Proof.
  intros Hoff. rewrite sleep_body_off by assumption.
  assert (Hc : Stmt.sleep_cond s = true).
  { unfold Stmt.sleep_cond. unfold OFF_THRESHOLD in Hoff. simpl in Hoff.
    destruct (Z.eqb_spec (handleTimer s) 0); [lia | reflexivity]. }
  assert (Hn : Stmt.not_off (Stmt.heater_off s) = false).
  { unfold Stmt.not_off.
    change (handleTimer (Stmt.heater_off s)) with (handleTimer s).
    now apply Z.ltb_ge. }
  unfold exec. cbn [repeat fold_left deliver step]. rewrite Hc.
  cbn [fold_left deliver step]. rewrite Hn. reflexivity.
Qed.

Lemma exec_off_iter (adc : adc_env) (n : nat) : forall s,
  OFF_THRESHOLD <= handleTimer s ->
  exec adc (repeat Tick (5 * n)) (L135, s) = (L135, sleep_iter adc n s).
Proof.
  induction n as [| n IH]; intros s Hoff.
  - reflexivity.
  - replace (5 * S n)%nat with (5 + 5 * n)%nat by lia.
    rewrite repeat_app, exec_app, exec_off_body by assumption.
    cbn [sleep_iter]. apply IH.
    rewrite sleep_body_off by assumption.
    destruct (off_body_effect s) as (Ht & _). lia.
Qed.

(** C4.  The off threshold is 12000.  Once the timer has reached it, every
    further pass of the loop of [sleep] - whatever the A/D converter would
    read - leaves the heater output low, takes no conversion and leaves the
    timer as it is, and the loop condition stays true; this goes on for any
    number of passes without an interrupt.  The interrupt routine sets the
    timer to 0, which makes the loop condition false. *)
Theorem off_state_persists (adc : adc_env) (s : state) (n : nat) :
  OFF_THRESHOLD <= handleTimer s ->
  OFF_THRESHOLD = 12000 /\
  exec adc (repeat Tick (5 * n)) (L135, s) = (L135, sleep_iter adc n s) /\
  handleTimer (sleep_iter adc n s) = handleTimer s /\
  conv (sleep_iter adc n s) = conv s /\
  Stmt.sleep_cond (sleep_iter adc n s) = true /\
  heaterOn (sleep_body adc (sleep_iter adc n s)) = false /\
  Stmt.sleep_cond (PCINT0_vect (sleep_iter adc n s)) = false.
Proof.
  intros Hoff. destruct (sleep_iter_off adc n s Hoff) as [Ht Hc].
  split; [reflexivity |]. split; [now apply exec_off_iter |].
  split; [exact Ht |]. split; [exact Hc |]. split; [| split].
  - unfold Stmt.sleep_cond. rewrite Ht.
    unfold OFF_THRESHOLD in Hoff. simpl in Hoff.
    destruct (Z.eqb_spec (handleTimer s) 0); [lia | reflexivity].
  - rewrite sleep_body_off by lia. apply off_body_effect.
  - reflexivity.
Qed.

Lemma off_state_persists_witness :
  OFF_THRESHOLD <= handleTimer (set_handleTimer 12000 reset_state) /\
  heaterOn
    (sleep_body adc_zero
       (sleep_iter adc_zero 3 (set_handleTimer 12000 reset_state))) = false.
Proof.
  split; [vm_compute; discriminate |].
  destruct (off_state_persists adc_zero (set_handleTimer 12000 reset_state) 3)
    as (_ & _ & _ & _ & _ & H & _); [vm_compute; discriminate |].
  exact H.
Defined.

(** ** The pin change interrupt *)

(** The interrupt routine writes 0 to [handleTimer] and nothing else, and a
    delivered interrupt does not move the program point. *)
Lemma PCINT0_vect_frame (adc : adc_env) (l : label) (s : state) :
  deliver adc (l, s) Irq = (l, PCINT0_vect s) /\
  handleTimer (PCINT0_vect s) = 0 /\
  PORTB (PCINT0_vect s) = PORTB s /\ DDRB (PCINT0_vect s) = DDRB s /\
  ADMUX (PCINT0_vect s) = ADMUX s /\ poti (PCINT0_vect s) = poti s /\
  temp (PCINT0_vect s) = temp s /\ smooth (PCINT0_vect s) = smooth s /\
  setpoint (PCINT0_vect s) = setpoint s /\
  sleep_temp (PCINT0_vect s) = sleep_temp s /\
  conv (PCINT0_vect s) = conv s.
Proof. repeat split. Qed.

(** The sleep branch of the loop body, after the interrupt has cleared the
    timer between the loop test and line 137. *)
Lemma sleep_branch_timer (adc : adc_env) (s : state) :
  handleTimer
    (Stmt.led_toggle (Stmt.sleep_heat (Stmt.sleep_read adc (Stmt.sleep_inc s))))
  = u16 (handleTimer s + 1).
Proof.
  destruct (handleTimer_frame adc
              (Stmt.sleep_heat (Stmt.sleep_read adc (Stmt.sleep_inc s))))
    as (_ & _ & _ & _ & _ & _ & _ & _ & _ & _ & E1 & _).
  destruct (handleTimer_frame adc (Stmt.sleep_read adc (Stmt.sleep_inc s)))
    as (_ & _ & _ & _ & _ & _ & _ & _ & _ & E2 & _).
  destruct (handleTimer_frame adc (Stmt.sleep_inc s))
    as (_ & _ & _ & _ & _ & _ & _ & _ & E3 & _).
  rewrite E1, E2, E3. reflexivity.
Qed.

(** C9, the failing run.  An interrupt delivered after the loop test of
    [sleep] and before line 137 is lost: the timer is cleared, the test of
    line 137 then holds, line 138 counts it up to 1, and the next loop test
    finds it non-zero, so the station stays in the loop of [sleep].  This
    holds from every state at line 136, and line 136 is reached with the
    timer at 6002 by the idle run from power-on. *)
Theorem wakeup_lost_after_check (adc : adc_env) (s : state) :
  fst (exec adc (Irq :: repeat Tick 8) (L136, s)) = L135 /\
  handleTimer (snd (exec adc (Irq :: repeat Tick 8) (L136, s))) = 1 /\
  fst (exec adc (Irq :: repeat Tick 9) (L136, s)) = L136 /\
  (fst (exec adc_zero idle_run (L183, boot adc_zero reset_state)) = L136 /\
   handleTimer (snd (exec adc_zero idle_run (L183, boot adc_zero reset_state)))
     = 6002 /\
   fst (exec adc_zero (idle_run ++ Irq :: repeat Tick 9)
          (L183, boot adc_zero reset_state)) = L136 /\
   handleTimer (snd (exec adc_zero (idle_run ++ Irq :: repeat Tick 9)
                       (L183, boot adc_zero reset_state))) = 1).
Proof.
  assert (H8 : exec adc (Irq :: repeat Tick 8) (L136, s) =
               (L135, Stmt.led_toggle (Stmt.sleep_heat (Stmt.sleep_read adc
                        (Stmt.sleep_inc (Stmt.heater_off (PCINT0_vect s))))))).
  { unfold exec. cbn [repeat fold_left deliver step fst snd].
    change (Stmt.not_off (Stmt.heater_off (PCINT0_vect s))) with true.
    reflexivity. }
  assert (Ht : handleTimer (snd (exec adc (Irq :: repeat Tick 8) (L136, s))) = 1).
  { rewrite H8. cbn [snd]. rewrite sleep_branch_timer. reflexivity. }
  split; [now rewrite H8 |]. split; [exact Ht |]. split.
  - change (Irq :: repeat Tick 9) with ((Irq :: repeat Tick 8) ++ [Tick]).
    rewrite exec_app. rewrite H8 in *. cbn [snd] in Ht.
    unfold exec. cbn [fold_left deliver step]. unfold Stmt.sleep_cond.
    rewrite Ht. reflexivity.
  - vm_compute. repeat split.
Qed.

(** An interrupt delivered after the increment of line 138, or anywhere in
    the off branch past line 137, is seen by the next loop test, which
    leaves the loop through line 148. *)
Lemma wakeup_seen (adc : adc_env) (l : label) (s : state) :
  past_increment l = true ->
  fst (exec adc (Irq :: repeat Tick (ticks_to_test l)) (l, s)) = L135 /\
  fst (exec adc (Irq :: repeat Tick (ticks_to_test l + 1)) (l, s)) = L148.
Proof.
  intros Hl.
  assert (H : exists t,
             exec adc (Irq :: repeat Tick (ticks_to_test l)) (l, s) = (L135, t)
             /\ handleTimer t = 0).
  { destruct l; try discriminate Hl; clear Hl;
      unfold exec; cbn [ticks_to_test repeat fold_left deliver step fst snd];
      eexists; (split; [reflexivity |]); timer_frame adc; reflexivity. }
  destruct H as (t & Ht & H0).
  rewrite repeat_app. change (repeat Tick 1) with [Tick].
  rewrite app_comm_cons, exec_app, Ht.
  split; [reflexivity |].
  unfold exec. cbn [fold_left deliver step]. unfold Stmt.sleep_cond.
  now rewrite H0.
Qed.

(** ** The range of the filter state *)

Lemma no_overflow_10bit (sm t : Z) :
  0 <= sm <= 1023 -> 0 <= t <= 1023 -> no_overflow sm t.
Proof.
  intros Hs Ht. unfold no_overflow.
  rewrite Z.shiftl_mul_pow2 by lia. change (2 ^ 3) with 8. lia.
Qed.

Lemma boot_smooth (adc : adc_env) (s0 : state) :
  smooth (boot adc s0) =
  fst (ADC_read adc (pinADC Pin.TEMP)
         (pinHigh Pin.SWITCH (pinOutput Pin.HEATER (pinOutput Pin.LED s0)))).
Proof. unfold boot. rewrite ADC_read_eq at 1. reflexivity. Qed.

Lemma read_temp_temp (adc : adc_env) (s : state) :
  temp (Stmt.read_temp adc s) = fst (ADC_read adc (pinADC Pin.TEMP) s).
Proof. rewrite read_temp_eq. reflexivity. Qed.

Ltac smooth_frame_at adc x :=
  let H := fresh in
  pose proof (smooth_frame adc x) as H; decompose [and] H; clear H.

Section TenBitConverter.
Variable adc : adc_env.
Hypothesis adc_10bit : forall ch k, 0 <= adc ch k <= 1023.

Lemma boot_smooth_ok (s0 : state) : smooth_ok (L183, boot adc s0).
Proof.
  split; cbn [fst snd]; [| discriminate].
  rewrite boot_smooth. apply ADC_read_range. intros k _. apply adc_10bit.
Qed.

Lemma step_smooth_ok (c : config) : smooth_ok c -> smooth_ok (step adc c).
Proof.
  destruct c as [l s]. intros [Hs Ht]. cbn [fst snd] in Hs, Ht.
  smooth_frame_at adc s.
  destruct l; cbn [step]; unfold Stmt.timer_tick; split_ifs;
    (split; cbn [fst snd]; [| try discriminate]);
    try (intros _); try congruence; try exact Hs.
  - rewrite read_temp_temp. apply ADC_read_range. intros k _. apply adc_10bit.
  - cbn [Stmt.smooth_temp smooth set_smooth].
    apply lowpass_range; [assumption | now apply Ht].
Qed.

Lemma exec_smooth_ok (tr : list event) : forall c,
  smooth_ok c -> smooth_ok (exec adc tr c).
Proof.
  induction tr as [| e tr IH]; intros c Hc; [exact Hc |].
  change (exec adc (e :: tr) c) with (exec adc tr (deliver adc c e)).
  apply IH. destruct e; [now apply step_smooth_ok |].
  destruct c as [l s]. exact Hc.
Qed.

End TenBitConverter.

(** C10.  With a 10-bit converter the sum of 16 conversions is at most
    16368, the filter state is within 0..1023 after set-up and in every
    state of every run (any interleaving of statements and interrupts), and
    whenever the filter update of line 191 is about to run the sample is
    within 0..1023 as well, none of the 16-bit intermediates of the update
    wraps, and the update stores exactly [(smooth*7 + temp)/8], again within
    0..1023. *)
Theorem smooth_in_range (adc : adc_env) (s0 : state) (tr : list event) :
  (forall ch k, 0 <= adc ch k <= 1023) ->
  (forall ch c, 0 <= adc_sum adc ch 16 c <= 16368) /\
  0 <= smooth (boot adc s0) <= 1023 /\
  0 <= smooth (snd (run adc s0 tr)) <= 1023 /\
  (fst (run adc s0 tr) = L191 ->
   0 <= temp (snd (run adc s0 tr)) <= 1023 /\
   no_overflow (smooth (snd (run adc s0 tr))) (temp (snd (run adc s0 tr))) /\
   smooth (snd (step adc (run adc s0 tr))) =
     lowpass_spec (smooth (snd (run adc s0 tr))) (temp (snd (run adc s0 tr))) /\
   0 <= smooth (snd (step adc (run adc s0 tr))) <= 1023).
Proof.
  intros H10.
  pose proof (boot_smooth_ok adc H10 s0) as Hb.
  pose proof (exec_smooth_ok adc H10 tr _ Hb) as Hr.
  fold (run adc s0 tr) in Hr.
  split.
  { intros ch c.
    pose proof (adc_sum_range adc ch 16 c (fun k _ => H10 ch k)) as Hs.
    change (Z.of_nat 16) with 16 in Hs. lia. }
  split; [exact (proj1 Hb) |]. split; [exact (proj1 Hr) |].
  intros Hl. destruct Hr as [Hs Ht]. specialize (Ht Hl).
  destruct (run adc s0 tr) as [l s]. cbn [fst snd] in *. subst l.
  split; [exact Ht |]. split; [now apply no_overflow_10bit |].
  cbn [step snd Stmt.smooth_temp smooth set_smooth].
  split; [now apply lowpass_is_spec | now apply lowpass_range].
Qed.

Lemma smooth_in_range_witness :
  0 <= smooth (snd (run adc_zero reset_state (repeat Tick 5))) <= 1023.
Proof.
  refine (proj1 (proj2 (proj2
            (smooth_in_range adc_zero reset_state (repeat Tick 5) _)))).
  intros ch k. unfold adc_zero, adc_of_list. destruct k; simpl; lia.
Defined.

(** * Further properties of the firmware *)

(** ** Sampler and mapping *)

Lemma adc_sum_between (adc : adc_env) (port lo hi : Z) (n : nat) : forall c,
  (forall k, (c <= k < c + n)%nat -> lo <= adc port k <= hi) ->
  lo * Z.of_nat n <= adc_sum adc port n c <= hi * Z.of_nat n.
Proof.
  induction n as [| n IH]; intros c Hr; cbn [adc_sum].
  - lia.
  - assert (H0 : lo <= adc port c <= hi) by (apply Hr; lia).
    assert (H1 : lo * Z.of_nat n <= adc_sum adc port n (S c) <= hi * Z.of_nat n)
      by (apply IH; intros k Hk; apply Hr; lia).
    lia.
Qed.

(** [ADC_read] (lines 113-124) returns a value between the smallest and the
    largest of the 16 readings it averages; in particular a steady reading
    is returned unchanged. *)
Theorem ADC_read_between (adc : adc_env) (port lo hi : Z) (s : state) :
  0 <= lo -> hi <= 1023 ->
  (forall k, (conv s <= k < conv s + 16)%nat -> lo <= adc (u8 port) k <= hi) ->
  lo <= fst (ADC_read adc port s) <= hi.
Proof.
  intros Hlo Hhi Hr.
  rewrite ADC_read_result by (intros k Hk; specialize (Hr k Hk); lia).
  cbn [fst].
  pose proof (adc_sum_between adc (u8 port) lo hi 16 (conv s) Hr) as Hs.
  change (Z.of_nat 16) with 16 in Hs.
  apply div_range; lia.
Qed.

Lemma ADC_read_between_witness :
  700 <= fst (ADC_read (fun _ _ => 700) 3 reset_state) <= 700.
Proof.
  apply (ADC_read_between (fun _ _ => 700) 3 700 700 reset_state); lia.
Defined.

Lemma mapSetpoint_v10_bounds (p : Z) :
  0 <= p <= 1023 -> 118 <= mapSetpoint_v10 p <= 324.
Proof.
  intros Hp. destruct (Z.lt_ge_cases p 512) as [Hlt | Hge].
  - rewrite mapSetpoint_v10_low by assumption.
    assert (0 <= p * 103 / 512 <= 102) by (apply div_range; lia). lia.
  - rewrite mapSetpoint_v10_high by assumption.
    assert (0 <= (p - 512) * 103 / 511 <= 103) by (apply div_range; lia). lia.
Qed.

(** The setpoint computed by lines 184-185 from a 10-bit potentiometer
    reading lies from TEMP150 up to one below TEMP450, hence above the
    sleep temperature TEMPSLEEP; the v1.0 mapping lies from TEMP150 up to
    TEMP450. *)
Theorem setpoint_bounds (p : Z) :
  0 <= p <= 1023 ->
  TEMPSLEEP < TEMP150 /\
  TEMP150 <= mapSetpoint p <= TEMP450 - 1 /\
  TEMP150 <= mapSetpoint_v10 p <= TEMP450.
Proof.
  intros Hp. pose proof (mapSetpoint_bounds p Hp) as H1.
  pose proof (mapSetpoint_v10_bounds p Hp) as H2.
  unfold TEMPSLEEP, TEMP150, TEMP450. lia.
Qed.

Lemma setpoint_bounds_witness :
  TEMP150 <= mapSetpoint 1023 <= TEMP450 - 1.
Proof.
  destruct (setpoint_bounds 1023) as (_ & H & _); [lia | exact H].
Defined.

Lemma div_step (a : Z) : 0 <= a -> a / 512 <= (a + 103) / 512 <= a / 512 + 1.
Proof.
  intros Ha. split.
  - apply Z.div_le_mono; lia.
  - replace (a / 512 + 1) with ((a + 1 * 512) / 512)
      by (rewrite Z.div_add by lia; reflexivity).
    apply Z.div_le_mono; lia.
Qed.

(** Turning the potentiometer up by one count raises the setpoint of lines
    184-185 by at most one count, also across the breakpoint: no setpoint
    between the two ends of the range is skipped. *)
Theorem mapSetpoint_step (p : Z) :
  0 <= p < 1023 ->
  mapSetpoint p <= mapSetpoint (p + 1) <= mapSetpoint p + 1.
Proof.
  intros Hp.
  destruct (Z.lt_ge_cases (p + 1) 512) as [Hlt | Hge].
  - rewrite !mapSetpoint_low by lia.
    pose proof (div_step (p * 103)) as H.
    replace ((p + 1) * 103) with (p * 103 + 103) by lia. lia.
  - destruct (Z.eq_dec p 511) as [-> | Hne].
    + change (mapSetpoint 511) with 220. change (mapSetpoint (511 + 1)) with 221.
      lia.
    + rewrite !mapSetpoint_high by lia.
      pose proof (div_step ((p - 512) * 103)) as H.
      replace ((p + 1 - 512) * 103) with ((p - 512) * 103 + 103) by lia. lia.
Qed.

Lemma mapSetpoint_step_witness :
  mapSetpoint 511 <= mapSetpoint (511 + 1) <= mapSetpoint 511 + 1.
Proof. apply (mapSetpoint_step 511). lia. Defined.

(** ** Filter *)

(** The filter update of line 191 never overshoots: on 10-bit values the
    new state lies between the old state and the sample, and it is
    monotone in both. *)
Theorem lowpass_no_overshoot (s1 s2 t1 t2 : Z) :
  0 <= s1 -> s1 <= s2 -> s2 <= 1023 -> 0 <= t1 -> t1 <= t2 -> t2 <= 1023 ->
  Z.min s1 t1 <= lowpass s1 t1 <= Z.max s1 t1 /\
  lowpass s1 t1 <= lowpass s2 t2.
Proof.
  intros. split.
  - apply lowpass_between; lia.
  - rewrite !lowpass_exact by lia. apply Z.div_le_mono; lia.
Qed.

Lemma lowpass_no_overshoot_witness :
  Z.min 200 1000 <= lowpass 200 1000 <= Z.max 200 1000 /\
  lowpass 200 1000 <= lowpass 300 1023.
Proof. apply (lowpass_no_overshoot 200 300 1000 1023); lia. Defined.

(** ** The sleep mode *)

Lemma sleep_body_sleeping (adc : adc_env) (s : state) :
  handleTimer s < OFF_THRESHOLD ->
  sleep_body adc s =
  Stmt.led_toggle (Stmt.sleep_heat (Stmt.sleep_read adc
    (Stmt.sleep_inc (Stmt.heater_off s)))).
Proof.
  intros Hlt. unfold sleep_body, Stmt.not_off.
  change (handleTimer (Stmt.heater_off s)) with (handleTimer s).
  now rewrite (proj2 (Z.ltb_lt _ _) Hlt).
Qed.

Lemma sleep_read_result (adc : adc_env) (t : state) :
  (forall k, (conv t <= k < conv t + 16)%nat -> 0 <= adc 3 k <= 1023) ->
  Stmt.sleep_read adc t =
  set_sleep_temp (adc_sum adc 3 16 (conv t) / 16)
    (set_conv (conv t + 16) (set_ADMUX 3 t)).
Proof.
  intros H. unfold Stmt.sleep_read. change (pinADC Pin.TEMP) with 3.
  rewrite ADC_read_result by (change (u8 3) with 3; exact H).
  change (u8 3) with 3. reflexivity.
Qed.

(** One pass of the loop of [sleep] in sleep mode (lines 136-142, timer
    below the off threshold): the timer goes up by one, 16 conversions of
    the temperature channel are taken, the heater is left on exactly when
    their mean is below TEMPSLEEP, and the LED output is toggled; the filter
    state and the pin directions are untouched. *)
Theorem sleep_mode_pass (adc : adc_env) (s : state) :
  0 <= handleTimer s < OFF_THRESHOLD ->
  (forall k, (conv s <= k < conv s + 16)%nat -> 0 <= adc 3 k <= 1023) ->
  handleTimer (sleep_body adc s) = handleTimer s + 1 /\
  heaterOn (sleep_body adc s) = (adc_sum adc 3 16 (conv s) / 16 <? TEMPSLEEP) /\
  statusOn (sleep_body adc s) = negb (statusOn s) /\
  conv (sleep_body adc s) = (conv s + 16)%nat /\
  ADMUX (sleep_body adc s) = 3 /\
  smooth (sleep_body adc s) = smooth s /\
  DDRB (sleep_body adc s) = DDRB s.
Proof.
  intros Ht Hr. rewrite sleep_body_sleeping by lia.
  split.
  { rewrite sleep_branch_timer.
    change (handleTimer (Stmt.heater_off s)) with (handleTimer s).
    apply u16_small. unfold OFF_THRESHOLD in Ht. simpl in Ht. lia. }
  rewrite sleep_read_result by exact Hr.
  change (conv (Stmt.sleep_inc (Stmt.heater_off s))) with (conv s).
  generalize (adc_sum adc 3 16 (conv s) / 16). intros v.
  unfold heaterOn, statusOn, Stmt.led_toggle, Stmt.sleep_heat.
  cbn [sleep_temp set_sleep_temp].
  destruct (v <? TEMPSLEEP);
    repeat split; try reflexivity;
    rewrite pinToggle_testbit by (unfold Pin.HEATER, Pin.LED; lia);
    rewrite ?pinHigh_testbit by (unfold Pin.HEATER, Pin.LED; lia);
    change (PORTB (set_sleep_temp v
              (set_conv (conv s + 16)
                 (set_ADMUX 3 (Stmt.sleep_inc (Stmt.heater_off s))))))
      with (PORTB (pinLow Pin.HEATER s));
    rewrite pinLow_testbit by (unfold Pin.HEATER, Pin.LED; lia);
    unfold Pin.HEATER, Pin.LED; cbn [Z.eqb negb xorb];
    rewrite ?andb_false_r, ?andb_true_r, ?orb_false_r, ?orb_true_r,
      ?xorb_false_r, ?xorb_true_r; reflexivity.
Qed.

Lemma sleep_mode_pass_witness :
  heaterOn (sleep_body adc_zero (set_handleTimer 6002 reset_state)) =
    (adc_sum adc_zero 3 16 0 / 16 <? TEMPSLEEP) /\
  statusOn (sleep_body adc_zero (set_handleTimer 6002 reset_state)) = true.
Proof.
  destruct (sleep_mode_pass adc_zero (set_handleTimer 6002 reset_state))
    as (_ & H1 & H2 & _).
  - vm_compute. split; [discriminate | reflexivity].
  - intros k _. unfold adc_zero, adc_of_list. destruct k; simpl; lia.
  - split; [exact H1 | exact H2].
Defined.

Lemma sleep_body_timer (adc : adc_env) (s : state) :
  handleTimer (sleep_body adc s) =
  if handleTimer s <? OFF_THRESHOLD then u16 (handleTimer s + 1)
  else handleTimer s.
Proof.
  destruct (Z.ltb_spec (handleTimer s) OFF_THRESHOLD) as [Hlt | Hge].
  - rewrite sleep_body_sleeping by assumption. now rewrite sleep_branch_timer.
  - rewrite sleep_body_off by assumption. reflexivity.
Qed.

(** Left alone, the loop of [sleep] (lines 135-147) counts the timer up to
    the off threshold and holds it there: after [n] passes the timer is
    [min (t + n) 12000].  It never wraps to 0, so the loop condition stays
    true and [sleep] does not return without an interrupt. *)
Theorem sleep_timer_saturates (adc : adc_env) (n : nat) (s : state) :
  0 < handleTimer s <= OFF_THRESHOLD ->
  handleTimer (sleep_iter adc n s) =
    Z.min (handleTimer s + Z.of_nat n) OFF_THRESHOLD /\
  Stmt.sleep_cond (sleep_iter adc n s) = true.
Proof.
  revert s. induction n as [| n IH]; intros s Hs.
  - cbn [sleep_iter]. unfold Stmt.sleep_cond. split; [lia |].
    destruct (Z.eqb_spec (handleTimer s) 0); [lia | reflexivity].
  - cbn [sleep_iter].
    pose proof (sleep_body_timer adc s) as Hb.
    assert (Ho : OFF_THRESHOLD = 12000) by reflexivity.
    destruct (Z.ltb_spec (handleTimer s) OFF_THRESHOLD) as [Hlt | Hge].
    + rewrite u16_small in Hb by lia.
      destruct (IH (sleep_body adc s)) as [IH1 IH2]; [lia |].
      split; [rewrite IH1, Hb; lia | exact IH2].
    + destruct (IH (sleep_body adc s)) as [IH1 IH2]; [lia |].
      split; [rewrite IH1, Hb; lia | exact IH2].
Qed.

Lemma sleep_timer_saturates_witness :
  handleTimer (sleep_iter adc_zero 3 (set_handleTimer 11999 reset_state)) =
    Z.min (11999 + 3) OFF_THRESHOLD.
Proof.
  destruct (sleep_timer_saturates adc_zero 3 (set_handleTimer 11999 reset_state))
    as [H _]; [vm_compute; split; [reflexivity | discriminate] |].
  exact H.
Defined.

(** ** Invariants of the machine *)

(** A property kept by every statement and by the interrupt routine holds
    along every trace. *)
Lemma exec_invariant (adc : adc_env) (P : config -> Prop) :
  (forall c, P c -> P (step adc c)) ->
  (forall l s, P (l, s) -> P (l, PCINT0_vect s)) ->
  forall tr c, P c -> P (exec adc tr c).
Proof.
  intros Hstep Hirq tr.
  induction tr as [| e tr IH]; intros c Hc; [exact Hc |].
  change (exec adc (e :: tr) c) with (exec adc tr (deliver adc c e)).
  apply IH. destruct e; [now apply Hstep |].
  destruct c as [l s]. now apply Hirq.
Qed.

Lemma boot_eq (adc : adc_env) (s0 : state) :
  boot adc s0 =
  set_smooth
    (fst (ADC_read adc (pinADC Pin.TEMP)
            (pinHigh Pin.SWITCH (pinOutput Pin.HEATER (pinOutput Pin.LED s0)))))
    (set_conv
       (conv (snd (ADC_read adc (pinADC Pin.TEMP)
                     (pinHigh Pin.SWITCH
                        (pinOutput Pin.HEATER (pinOutput Pin.LED s0))))))
       (set_ADMUX (u8 (pinADC Pin.TEMP))
          (pinHigh Pin.SWITCH (pinOutput Pin.HEATER (pinOutput Pin.LED s0))))).
Proof. unfold boot. rewrite ADC_read_eq at 1. reflexivity. Qed.

(** Evaluate the bound of the timer at the program points of the goal. *)
Ltac eval_bound_at l :=
  lazymatch l with
  | (if _ then _ else _) => fail
  | _ => let v := eval vm_compute in (timer_bound l) in
         change (timer_bound l) with v in *
  end.

Ltac eval_bounds :=
  change SLEEP_THRESHOLD with 6000 in *;
  change OFF_THRESHOLD with 12000 in *;
  repeat match goal with
         | |- context [timer_bound ?l] => eval_bound_at l
         | H : context [timer_bound ?l] |- _ => eval_bound_at l
         end.

Lemma step_timer_ok (adc : adc_env) (c : config) :
  timer_ok c -> timer_ok (step adc c).
Proof.
  destruct c as [l s]. unfold timer_ok. cbn [fst snd]. intros H.
  pose proof (handleTimer_frame adc s) as F. decompose [and] F. clear F.
  destruct l; cbn [step Stmt.timer_tick]; unfold Stmt.sleep_cond, Stmt.not_off;
    cbn [fst snd]; eval_bounds;
    try (match goal with
         | E : handleTimer ?x = handleTimer s |- context [handleTimer ?x] =>
             rewrite E
         end);
    try lia.
  - rewrite Z.gtb_ltb.
    destruct (Z.ltb_spec 6000 (handleTimer s)); cbn [fst snd]; eval_bounds;
      cbn [handleTimer set_handleTimer]; rewrite u16_small by lia; lia.
  - destruct (Z.eqb_spec (handleTimer s) 0); cbn [fst snd negb]; eval_bounds; lia.
  - destruct (Z.ltb_spec (handleTimer s) 12000); cbn [fst snd]; eval_bounds; lia.
  - unfold Stmt.sleep_inc. cbn [handleTimer set_handleTimer].
    rewrite u16_small by lia. lia.
Qed.

Lemma boot_timer (adc : adc_env) (s0 : state) :
  handleTimer (boot adc s0) = handleTimer s0.
Proof. rewrite boot_eq. reflexivity. Qed.

(** From power-on (the global [handleTimer] starts at 0) and under every
    interleaving of statements and interrupts, the timer stays within
    0..12000, and within 0..6001 while the machine is in the main loop.  The
    16-bit counter therefore never wraps at the increments of lines 138 and
    199. *)
Theorem timer_bounded (adc : adc_env) (s0 : state) (tr : list event) :
  handleTimer s0 = 0 ->
  0 <= handleTimer (snd (run adc s0 tr)) <= OFF_THRESHOLD /\
  (in_main (fst (run adc s0 tr)) = true ->
   handleTimer (snd (run adc s0 tr)) <= SLEEP_THRESHOLD + 1) /\
  u16 (handleTimer (snd (run adc s0 tr)) + 1) =
    handleTimer (snd (run adc s0 tr)) + 1.
Proof.
  intros H0.
  assert (Hr : timer_ok (run adc s0 tr)).
  { unfold run. apply exec_invariant.
    - apply step_timer_ok.
    - intros l s [Hlo Hhi]. split; cbn [fst snd] in *;
        change (handleTimer (PCINT0_vect s)) with 0; lia.
    - unfold timer_ok. cbn [fst snd]. rewrite boot_timer, H0.
      change (timer_bound L183) with 6001. lia. }
  destruct (run adc s0 tr) as [l s]. unfold timer_ok in Hr.
  cbn [fst snd] in *.
  assert (Hb : timer_bound l <= 12000) by (destruct l; vm_compute; discriminate).
  change OFF_THRESHOLD with 12000. change SLEEP_THRESHOLD with 6000.
  split; [lia |]. split.
  - intros Hm. unfold timer_bound in Hr. rewrite Hm in Hr.
    change SLEEP_THRESHOLD with 6000 in Hr. lia.
  - apply u16_small. lia.
Qed.

Lemma timer_bounded_witness :
  handleTimer reset_state = 0 /\
  0 <= handleTimer (snd (run adc_zero reset_state idle_run)) <= OFF_THRESHOLD.
Proof.
  split; [reflexivity |].
  destruct (timer_bounded adc_zero reset_state idle_run) as [H _];
    [reflexivity | exact H].
Defined.

(** What the statements leave alone in the two port registers. *)
Lemma ports_frame (adc : adc_env) (s : state) :
  (PORTB (Stmt.read_poti adc s) = PORTB s /\
   PORTB (Stmt.map_setpoint s) = PORTB s /\
   PORTB (Stmt.read_temp adc s) = PORTB s /\
   PORTB (Stmt.smooth_temp s) = PORTB s /\
   PORTB (Stmt.sleep_inc s) = PORTB s /\
   PORTB (Stmt.sleep_read adc s) = PORTB s /\
   PORTB (Stmt.led_input s) = PORTB s /\
   PORTB (Stmt.led_output s) = PORTB s) /\
  (DDRB (Stmt.read_poti adc s) = DDRB s /\
   DDRB (Stmt.map_setpoint s) = DDRB s /\
   DDRB (Stmt.heater_off s) = DDRB s /\
   DDRB (Stmt.read_temp adc s) = DDRB s /\
   DDRB (Stmt.smooth_temp s) = DDRB s /\
   DDRB (Stmt.heater_set s) = DDRB s /\
   DDRB (Stmt.led_off s) = DDRB s /\
   DDRB (Stmt.led_set s) = DDRB s /\
   DDRB (Stmt.sleep_inc s) = DDRB s /\
   DDRB (Stmt.sleep_read adc s) = DDRB s /\
   DDRB (Stmt.sleep_heat s) = DDRB s /\
   DDRB (Stmt.led_toggle s) = DDRB s).
Proof.
  rewrite read_poti_eq, read_temp_eq, sleep_read_eq.
  unfold Stmt.heater_set, Stmt.led_set, Stmt.sleep_heat.
  repeat split; split_ifs; reflexivity.
Qed.




Lemma pinOutput_testbit (x y : Z) (s : state) :
  0 <= x -> 0 <= y < 8 ->
  Z.testbit (DDRB (pinOutput x s)) y = Z.testbit (DDRB s) y || (x =? y).
Proof.
  intros Hx Hy. unfold pinOutput. cbn [DDRB set_DDRB].
  now rewrite testbit_u8, Z.lor_spec, testbit_mask.
Qed.

Lemma pinInput_testbit (x y : Z) (s : state) :
  0 <= x -> 0 <= y < 8 ->
  Z.testbit (DDRB (pinInput x s)) y = Z.testbit (DDRB s) y && negb (x =? y).
Proof.
  intros Hx Hy. unfold pinInput. cbn [DDRB set_DDRB].
  rewrite testbit_u8, Z.land_spec, Z.lnot_spec, testbit_mask by lia.
  reflexivity.
Qed.

(** Read a bit of PORTB or DDRB through the pin macros, for any pins. *)
Ltac pin_bits :=
  unfold Pin.LED, Pin.HEATER, Pin.SWITCH in *;
  repeat (rewrite ?pinHigh_testbit, ?pinLow_testbit, ?pinToggle_testbit,
            ?pinOutput_testbit, ?pinInput_testbit by lia);
  cbn [Z.eqb negb xorb];
  rewrite ?andb_false_r, ?andb_true_r, ?orb_false_r, ?orb_true_r,
    ?xorb_false_r, ?xorb_true_r.

Lemma boot_pins_ok (adc : adc_env) (s0 : state) : pins_ok (L183, boot adc s0).
Proof.
  unfold pins_ok. cbn [fst snd]. rewrite boot_eq.
  cbn [DDRB PORTB set_smooth set_conv set_ADMUX].
  change (DDRB (pinHigh Pin.SWITCH
                  (pinOutput Pin.HEATER (pinOutput Pin.LED s0))))
    with (DDRB (pinOutput Pin.HEATER (pinOutput Pin.LED s0))).
  repeat split; try intros _; pin_bits; reflexivity.
Qed.

Lemma step_pins_ok (adc : adc_env) (c : config) :
  pins_ok c -> pins_ok (step adc c).
Proof.
  destruct c as [l s]. unfold pins_ok. cbn [fst snd]. intros (Hh & Hs & Hl).
  destruct (ports_frame adc s) as [FP FD].
  decompose [and] FP. decompose [and] FD. clear FP FD.
  destruct l; cbn [step Stmt.timer_tick]; unfold Stmt.sleep_cond, Stmt.not_off;
    split_ifs; cbn [fst snd in_main];
    (split; [| split; [| intros Hm; try discriminate Hm] ]);
    repeat match goal with
           | E : PORTB ?x = PORTB s |- context [PORTB ?x] => rewrite E
           | E : DDRB ?x = DDRB s |- context [DDRB ?x] => rewrite E
           end;
    try assumption; try (apply Hl; reflexivity);
    unfold Stmt.heater_off, Stmt.heater_set, Stmt.led_off, Stmt.led_set,
      Stmt.sleep_heat, Stmt.led_toggle, Stmt.led_input, Stmt.led_output;
    split_ifs; try assumption;
    pin_bits; try assumption; reflexivity.
Qed.

(** After set-up and on every run, whatever the interrupts do: the heater
    pin stays an output, the pull-up of the tilt switch pin stays on, and
    whenever the machine is in the main loop the LED pin is an output (line
    148 restores it when [sleep] returns from the off mode). *)
Theorem pins_stay_configured (adc : adc_env) (s0 : state) (tr : list event) :
  Z.testbit (DDRB (snd (run adc s0 tr))) Pin.HEATER = true /\
  Z.testbit (PORTB (snd (run adc s0 tr))) Pin.SWITCH = true /\
  (in_main (fst (run adc s0 tr)) = true ->
   Z.testbit (DDRB (snd (run adc s0 tr))) Pin.LED = true).
Proof.
  assert (Hr : pins_ok (run adc s0 tr)).
  { unfold run. apply exec_invariant.
    - apply step_pins_ok.
    - intros l s H. exact H.
    - apply boot_pins_ok. }
  exact Hr.
Qed.

Lemma pins_stay_configured_witness :
  in_main (fst (run adc_zero reset_state (repeat Tick 4))) = true /\
  Z.testbit (DDRB (snd (run adc_zero reset_state (repeat Tick 4)))) Pin.LED
    = true.
Proof.
  split; [reflexivity |].
  apply (pins_stay_configured adc_zero reset_state (repeat Tick 4)).
  reflexivity.
Defined.

(** ** One pass of the control statements *)

Lemma read_poti_result (adc : adc_env) (t : state) :
  (forall k, (conv t <= k < conv t + 16)%nat -> 0 <= adc 2 k <= 1023) ->
  Stmt.read_poti adc t =
  set_poti (adc_sum adc 2 16 (conv t) / 16)
    (set_conv (conv t + 16) (set_ADMUX 2 t)).
Proof.
  intros H. unfold Stmt.read_poti. change (pinADC Pin.POTI) with 2.
  rewrite ADC_read_result by (change (u8 2) with 2; exact H).
  change (u8 2) with 2. reflexivity.
Qed.

Lemma read_temp_result (adc : adc_env) (t : state) :
  (forall k, (conv t <= k < conv t + 16)%nat -> 0 <= adc 3 k <= 1023) ->
  Stmt.read_temp adc t =
  set_temp (adc_sum adc 3 16 (conv t) / 16)
    (set_conv (conv t + 16) (set_ADMUX 3 t)).
Proof.
  intros H. unfold Stmt.read_temp. change (pinADC Pin.TEMP) with 3.
  rewrite ADC_read_result by (change (u8 3) with 3; exact H).
  change (u8 3) with 3. reflexivity.
Qed.

Lemma outputs_frame (s : state) :
  conv (outputs s) = conv s /\ handleTimer (outputs s) = handleTimer s /\
  DDRB (outputs s) = DDRB s /\ ADMUX (outputs s) = ADMUX s.
Proof.
  unfold outputs, Stmt.led_set, Stmt.led_off, Stmt.heater_set, Stmt.heater_off.
  repeat split; split_ifs; reflexivity.
Qed.

(** One pass of lines 183-196 with a 10-bit converter, end to end: 16
    conversions of channel 2 give the potentiometer mean and 16 further
    conversions of channel 3 the temperature mean; the setpoint is the
    mapping of the first, the filter state becomes
    [(smooth*7 + temperature mean)/8], the heater is on exactly when the new
    filter state is below the new setpoint, and the timer is untouched. *)
Theorem control_cycle (adc : adc_env) (s : state) :
  (forall k, (conv s <= k < conv s + 16)%nat -> 0 <= adc 2 k <= 1023) ->
  (forall k, (conv s + 16 <= k < conv s + 32)%nat -> 0 <= adc 3 k <= 1023) ->
  0 <= smooth s <= 1023 ->
  setpoint (control adc s) = mapSetpoint (adc_sum adc 2 16 (conv s) / 16) /\
  smooth (control adc s) =
    (smooth s * 7 + adc_sum adc 3 16 (conv s + 16) / 16) / 8 /\
  heaterOn (control adc s) =
    ((smooth s * 7 + adc_sum adc 3 16 (conv s + 16) / 16) / 8
     <? mapSetpoint (adc_sum adc 2 16 (conv s) / 16)) /\
  conv (control adc s) = (conv s + 32)%nat /\
  handleTimer (control adc s) = handleTimer s.
Proof.
  intros Hp Ht Hs.
  assert (Hm : 0 <= adc_sum adc 3 16 (conv s + 16) / 16 <= 1023).
  { assert (Hr : forall k, (conv s + 16 <= k < conv s + 16 + 16)%nat ->
                           0 <= adc 3 k <= 1023)
      by (intros k Hk; apply Ht; lia).
    pose proof (adc_sum_range adc 3 16 (conv s + 16) Hr) as Hsum.
    change (Z.of_nat 16) with 16 in Hsum. apply div_range; lia. }
  rewrite control_outputs, read_poti_result by exact Hp.
  rewrite read_temp_result
    by (intros k Hk; apply Ht; cbn [conv Stmt.map_setpoint set_setpoint
                                     set_poti set_conv] in Hk; lia).
  cbn [conv Stmt.map_setpoint set_setpoint set_poti set_conv poti].
  generalize dependent (adc_sum adc 3 16 (conv s + 16) / 16). intros tm Hm.
  generalize (adc_sum adc 2 16 (conv s) / 16). intros pm.
  match goal with
  | |- context [outputs ?t] =>
      destruct (outputs_temps t) as [E1 E2];
      destruct (outputs_frame t) as (E3 & E4 & _);
      rewrite outputs_heater, E1, E2, E3, E4
  end.
  cbn [Stmt.smooth_temp smooth setpoint conv handleTimer temp set_smooth
       set_temp set_conv set_ADMUX set_setpoint set_poti].
  rewrite lowpass_exact by assumption.
  repeat split. lia.
Qed.

Lemma control_cycle_witness :
  setpoint (control (fun _ _ => 512) (with_temps 200 0)) = mapSetpoint 512 /\
  smooth (control (fun _ _ => 512) (with_temps 200 0)) = (200 * 7 + 512) / 8 /\
  heaterOn (control (fun _ _ => 512) (with_temps 200 0)) = false.
Proof.
  destruct (control_cycle (fun _ _ => 512) (with_temps 200 0))
    as (H1 & H2 & H3 & _).
  - intros k _. lia.
  - intros k _. lia.
  - simpl. lia.
  - split; [exact H1 |]. split; [exact H2 | exact H3].
Defined.

(** ** Interrupts during the control statements *)

Lemma ADC_read_irq (adc : adc_env) (port : Z) (s : state) :
  ADC_read adc port (PCINT0_vect s) =
  (fst (ADC_read adc port s), PCINT0_vect (snd (ADC_read adc port s))).
Proof.
  unfold ADC_read.
  change (ADMUX (set_ADMUX (u8 port) (PCINT0_vect s))) with (u8 port).
  change (conv (set_ADMUX (u8 port) (PCINT0_vect s))) with (conv s).
  change (ADMUX (set_ADMUX (u8 port) s)) with (u8 port).
  change (conv (set_ADMUX (u8 port) s)) with (conv s).
  destruct (ADC_loop adc (u8 port) 16 0 (conv s)) as [r c].
  reflexivity.
Qed.

(** The statements of lines 183-196 commute with the interrupt routine. *)
Lemma control_stmt_irq (adc : adc_env) (s : state) :
  Stmt.read_poti adc (PCINT0_vect s) = PCINT0_vect (Stmt.read_poti adc s) /\
  Stmt.map_setpoint (PCINT0_vect s) = PCINT0_vect (Stmt.map_setpoint s) /\
  Stmt.heater_off (PCINT0_vect s) = PCINT0_vect (Stmt.heater_off s) /\
  Stmt.read_temp adc (PCINT0_vect s) = PCINT0_vect (Stmt.read_temp adc s) /\
  Stmt.smooth_temp (PCINT0_vect s) = PCINT0_vect (Stmt.smooth_temp s) /\
  Stmt.heater_set (PCINT0_vect s) = PCINT0_vect (Stmt.heater_set s) /\
  Stmt.led_off (PCINT0_vect s) = PCINT0_vect (Stmt.led_off s) /\
  Stmt.led_set (PCINT0_vect s) = PCINT0_vect (Stmt.led_set s).
Proof.
  unfold Stmt.read_poti, Stmt.read_temp. rewrite !ADC_read_irq.
  destruct (ADC_read adc (pinADC Pin.POTI) s) as [r1 t1].
  destruct (ADC_read adc (pinADC Pin.TEMP) s) as [r2 t2].
  unfold Stmt.heater_set, Stmt.led_set.
  change (smooth (PCINT0_vect s)) with (smooth s).
  change (setpoint (PCINT0_vect s)) with (setpoint s).
  repeat split; split_ifs; reflexivity.
Qed.

Lemma step_irq_commute (adc : adc_env) (l : label) (s : state) (n : nat) :
  to_timer_test l = Some (S n) ->
  step adc (l, PCINT0_vect s) =
    (fst (step adc (l, s)), PCINT0_vect (snd (step adc (l, s)))) /\
  to_timer_test (fst (step adc (l, s))) = Some n.
Proof.
  intros Hl. destruct (control_stmt_irq adc s) as (E1 & E2 & E3 & E4 & E5 & E6 & E7 & E8).
  destruct l; try discriminate Hl; cbn [step fst snd];
    rewrite ?E1, ?E2, ?E3, ?E4, ?E5, ?E6, ?E7, ?E8;
    (split; [reflexivity |]); cbn [to_timer_test] in *; congruence.
Qed.

Lemma exec_tick (adc : adc_env) (k : nat) (c : config) :
  exec adc (repeat Tick (S k)) c = exec adc (repeat Tick k) (step adc c).
Proof. reflexivity. Qed.

Lemma ticks_irq_commute (adc : adc_env) (k : nat) : forall l s m,
  to_timer_test l = Some m -> (k <= m)%nat ->
  exec adc (repeat Tick k) (l, PCINT0_vect s) =
  (fst (exec adc (repeat Tick k) (l, s)),
   PCINT0_vect (snd (exec adc (repeat Tick k) (l, s)))).
Proof.
  induction k as [| k IH]; intros l s m Hl Hk.
  - reflexivity.
  - destruct m as [| m]; [lia |].
    destruct (step_irq_commute adc l s m Hl) as [Hc Hn].
    rewrite !exec_tick, Hc.
    destruct (step adc (l, s)) as [l2 s2]. cbn [fst snd] in *.
    apply (IH l2 s2 m); [exact Hn | lia].
Qed.

Lemma reset_if_irq (b : bool) (s : state) :
  reset_if b (PCINT0_vect s) = PCINT0_vect s.
Proof. destruct b; reflexivity. Qed.

Lemma control_trace (adc : adc_env) (tr : list event) : forall l s m,
  to_timer_test l = Some m -> (count_ticks tr <= m)%nat ->
  exec adc tr (l, s) =
  (fst (exec adc (repeat Tick (count_ticks tr)) (l, s)),
   reset_if (has_irq tr) (snd (exec adc (repeat Tick (count_ticks tr)) (l, s)))).
Proof.
  induction tr as [| e tr IH]; intros l s m Hl Hk.
  - reflexivity.
  - destruct e; cbn [count_ticks has_irq] in *.
    + destruct m as [| m]; [lia |].
      destruct (step_irq_commute adc l s m Hl) as [_ Hn].
      rewrite exec_tick.
      change (exec adc (Tick :: tr) (l, s)) with (exec adc tr (step adc (l, s))).
      destruct (step adc (l, s)) as [l2 s2]. cbn [fst] in Hn.
      apply (IH l2 s2 m); [exact Hn | lia].
    + change (exec adc (Irq :: tr) (l, s)) with (exec adc tr (l, PCINT0_vect s)).
      rewrite (IH l (PCINT0_vect s) m Hl Hk).
      rewrite (ticks_irq_commute adc (count_ticks tr) l s m Hl Hk).
      cbn [fst snd]. now rewrite reset_if_irq.
Qed.

Lemma exec_control (adc : adc_env) (s : state) :
  exec adc (repeat Tick 9) (L183, s) = (L199, control adc s).
Proof.
  unfold exec, control. cbn [repeat fold_left deliver step]. reflexivity.
Qed.

(** Interrupts cannot disturb the control statements: however pin change
    interrupts fall among the nine statements of lines 183-196, the machine
    arrives at the timer test of line 199 in the state [control] computes,
    with the timer cleared if any interrupt fell; outputs, filter state and
    setpoint are those of the undisturbed pass. *)
Theorem irq_leaves_control_alone (adc : adc_env) (tr : list event) (s : state) :
  count_ticks tr = 9%nat ->
  exec adc tr (L183, s) = (L199, reset_if (has_irq tr) (control adc s)) /\
  PORTB (snd (exec adc tr (L183, s))) = PORTB (control adc s) /\
  smooth (snd (exec adc tr (L183, s))) = smooth (control adc s) /\
  setpoint (snd (exec adc tr (L183, s))) = setpoint (control adc s) /\
  handleTimer (snd (exec adc tr (L183, s))) =
    (if has_irq tr then 0 else handleTimer s).
Proof.
  intros H9.
  assert (E : exec adc tr (L183, s) =
              (L199, reset_if (has_irq tr) (control adc s))).
  { rewrite (control_trace adc tr L183 s 9 eq_refl) by lia.
    rewrite H9, exec_control. reflexivity. }
  rewrite E. cbn [snd]. split; [reflexivity |].
  pose proof (control_handleTimer adc s) as Ht.
  generalize dependent (control adc s). intros t _ Ht.
  destruct (has_irq tr); cbn [reset_if]; repeat split; exact Ht.
Qed.

Lemma irq_leaves_control_alone_witness :
  exec adc_zero [Tick; Tick; Irq; Tick; Tick; Tick; Irq; Tick; Tick; Tick; Tick]
    (L183, reset_state) =
  (L199, reset_if true (control adc_zero reset_state)).
Proof.
  apply (irq_leaves_control_alone adc_zero
           [Tick; Tick; Irq; Tick; Tick; Tick; Irq; Tick; Tick; Tick; Tick]
           reset_state).
  reflexivity.
Defined.

(** ** Waking up *)

Lemma wakeup_reaches_test (adc : adc_env) (l : label) (s : state) :
  past_increment l = true ->
  exists t,
    exec adc (Irq :: repeat Tick (ticks_to_test l)) (l, s) = (L135, t) /\
    handleTimer t = 0 /\ smooth t = smooth s.
Proof.
  intros Hl.
  destruct l; try discriminate Hl; clear Hl;
    unfold exec; cbn [ticks_to_test repeat fold_left deliver step fst snd];
    eexists; (split; [reflexivity |]);
    (split;
     [ timer_frame adc; reflexivity
     | repeat match goal with
              | |- smooth (?f ?x) = _ =>
                  smooth_frame_at adc x;
                  match goal with
                  | E : smooth (f x) = smooth x |- _ => rewrite E
                  end;
                  repeat match goal with E : smooth _ = _ |- _ => clear E end
              end; reflexivity ]).
Qed.

(** A pin change interrupt that falls after the increment of line 138 (or in
    the off branch, or during the delay of line 146) ends [sleep]: the next
    loop test fails, line 148 makes the LED pin an output again, and the
    machine is back in the main loop at line 200 with the timer at 0 and the
    filter state it had before. *)
Theorem wakeup_returns_to_main (adc : adc_env) (l : label) (s : state) :
  past_increment l = true ->
  fst (exec adc (Irq :: repeat Tick (ticks_to_test l + 2)) (l, s)) = L200 /\
  handleTimer (snd (exec adc (Irq :: repeat Tick (ticks_to_test l + 2)) (l, s)))
    = 0 /\
  Z.testbit
    (DDRB (snd (exec adc (Irq :: repeat Tick (ticks_to_test l + 2)) (l, s))))
    Pin.LED = true /\
  smooth (snd (exec adc (Irq :: repeat Tick (ticks_to_test l + 2)) (l, s)))
    = smooth s.
Proof.
  intros Hl.
  destruct (wakeup_reaches_test adc l s Hl) as (t & Ht & H0 & Hs).
  rewrite repeat_app, app_comm_cons, exec_app, Ht.
  unfold exec. cbn [repeat fold_left deliver step]. unfold Stmt.sleep_cond.
  rewrite H0. cbn [Z.eqb negb fst snd]. unfold Stmt.led_output.
  split; [reflexivity |]. split; [exact H0 |]. split; [| exact Hs].
  rewrite pinOutput_testbit by (unfold Pin.LED; lia).
  unfold Pin.LED. cbn [Z.eqb]. apply orb_true_r.
Qed.

Lemma wakeup_returns_to_main_witness :
  past_increment L146 = true /\
  fst (exec adc_zero (Irq :: repeat Tick (ticks_to_test L146 + 2))
         (L146, set_handleTimer 12000 reset_state)) = L200.
Proof.
  split; [reflexivity |].
  apply (wakeup_returns_to_main adc_zero L146
           (set_handleTimer 12000 reset_state)).
  reflexivity.
Defined.

(** ** From power-on to sleep *)

(** One pass of the main loop that begins with the timer at most at the
    sleep threshold is eleven statements and ends at line 183 again. *)
Lemma exec_main_pass (adc : adc_env) (s : state) :
  0 <= handleTimer s <= SLEEP_THRESHOLD ->
  exec adc (repeat Tick 11) (L183, s) = (L183, snd (main_cycle adc s)) /\
  handleTimer (snd (main_cycle adc s)) = handleTimer s + 1.
Proof.
  intros Hr. destruct (main_cycle_timer adc s) as [Hb Ht].
  change SLEEP_THRESHOLD with 6000 in *.
  rewrite u16_small in Ht by lia. split; [| exact Ht].
  change (repeat Tick 11) with (repeat Tick 10 ++ [Tick]).
  rewrite exec_app, exec_main_cycle, Hb, Z.gtb_ltb.
  now rewrite (proj2 (Z.ltb_ge 6000 (handleTimer s))) by lia.
Qed.

Lemma exec_main_iter (adc : adc_env) (k : nat) : forall s,
  0 <= handleTimer s -> handleTimer s + Z.of_nat k <= SLEEP_THRESHOLD + 1 ->
  exec adc (repeat Tick (11 * k)) (L183, s) = (L183, main_iter adc k s) /\
  handleTimer (main_iter adc k s) = handleTimer s + Z.of_nat k.
Proof.
  induction k as [| k IH]; intros s H0 Hk.
  - cbn [main_iter]. split; [reflexivity | lia].
  - destruct (exec_main_pass adc s) as [E1 E2]; [lia |].
    destruct (IH (snd (main_cycle adc s))) as [E3 E4]; [lia | lia |].
    replace (11 * S k)%nat with (11 + 11 * k)%nat by lia.
    rewrite repeat_app, exec_app, E1. cbn [main_iter].
    split; [exact E3 | rewrite E4, E2; lia].
Qed.

(** The pass that begins with the timer above the sleep threshold ends
    inside the loop of [sleep], past its first loop test. *)
Lemma exec_sleep_pass (adc : adc_env) (s : state) :
  SLEEP_THRESHOLD < handleTimer s < 65535 ->
  exec adc (repeat Tick 10 ++ [Tick]) (L183, s) =
    (L136, snd (main_cycle adc s)) /\
  handleTimer (snd (main_cycle adc s)) = handleTimer s + 1.
Proof.
  intros Hr. destruct (main_cycle_timer adc s) as [Hb Ht].
  change SLEEP_THRESHOLD with 6000 in *.
  rewrite u16_small in Ht by lia. split; [| exact Ht].
  rewrite exec_app, exec_main_cycle, Hb, Z.gtb_ltb.
  rewrite (proj2 (Z.ltb_lt 6000 (handleTimer s))) by lia.
  generalize dependent (snd (main_cycle adc s)). intros t Ht.
  unfold exec. cbn [fold_left deliver step]. unfold Stmt.sleep_cond.
  rewrite Ht.
  destruct (Z.eqb_spec (handleTimer s + 1) 0) as [E | _]; [lia | reflexivity].
Qed.

Lemma idle_run_split :
  idle_run = repeat Tick (11 * Z.to_nat 6001) ++ repeat Tick 10 ++ [Tick].
Proof.
  unfold idle_run. rewrite app_assoc, <- !repeat_app.
  change [Tick] with (repeat Tick 1). rewrite <- repeat_app.
  f_equal; lia.
Qed.

Lemma idle_run_exec (adc : adc_env) (s : state) (n : nat) :
  handleTimer s = 0 -> Z.of_nat n = 6001 ->
  exec adc (repeat Tick (11 * n) ++ repeat Tick 10 ++ [Tick]) (L183, s) =
    (L136, snd (main_cycle adc (main_iter adc n s))) /\
  handleTimer (snd (main_cycle adc (main_iter adc n s))) = 6002.
Proof.
  intros H0 Hn.
  assert (Hs : SLEEP_THRESHOLD = 6000) by reflexivity.
  assert (Hn' : handleTimer s + Z.of_nat n <= SLEEP_THRESHOLD + 1) by lia.
  assert (H0' : 0 <= handleTimer s) by lia.
  destruct (exec_main_iter adc n s H0' Hn') as [E3 E4].
  assert (Hr : SLEEP_THRESHOLD < handleTimer (main_iter adc n s) < 65535)
    by (clear E3; lia).
  destruct (exec_sleep_pass adc (main_iter adc n s) Hr) as [E5 E6].
  split; [rewrite exec_app, E3; exact E5 | clear E3 E5; lia].
Qed.

(** Projections of an explicit pair, as rewriting steps. *)
Lemma fst_pair_eq {A B : Type} (a : A) (b : B) : fst (a, b) = a.
Proof. reflexivity. Qed.

Lemma snd_pair_eq {A B : Type} (a : A) (b : B) : snd (a, b) = b.
Proof. reflexivity. Qed.

(** If nobody moves the handle, the station works for exactly 6001 passes
    of the main loop and calls [sleep] in the pass after: from a timer at 0,
    after [k <= 6001] passes the machine is at line 183 with the timer at
    [k]; the next pass from 6001 ends inside the loop of [sleep], at line
    136, with the timer at 6002. *)
Theorem idle_enters_sleep (adc : adc_env) (s : state) (k : nat) :
  handleTimer s = 0 -> (k <= Z.to_nat 6001)%nat ->
  fst (exec adc (repeat Tick (11 * k)) (L183, s)) = L183 /\
  handleTimer (snd (exec adc (repeat Tick (11 * k)) (L183, s))) = Z.of_nat k /\
  fst (exec adc idle_run (L183, s)) = L136 /\
  handleTimer (snd (exec adc idle_run (L183, s))) = 6002.
Proof.
  intros H0 Hk.
  assert (Hn : Z.of_nat (Z.to_nat 6001) = 6001) by (apply Z2Nat.id; discriminate).
  destruct (idle_run_exec adc s (Z.to_nat 6001) H0 Hn) as [E5 E6].
  assert (Hk' : handleTimer s + Z.of_nat k <= SLEEP_THRESHOLD + 1)
    by (clear E5 E6; change SLEEP_THRESHOLD with 6000; lia).
  assert (H0' : 0 <= handleTimer s) by (clear E5 E6; lia).
  destruct (exec_main_iter adc k s H0' Hk') as [E1 E2].
  rewrite idle_run_split, E1, E5, !fst_pair_eq, !snd_pair_eq.
  split; [reflexivity |]. split; [clear E1 E5 E6; lia |].
  split; [reflexivity | exact E6].
Qed.

Lemma idle_enters_sleep_witness :
  handleTimer (boot adc_zero reset_state) = 0 /\
  fst (exec adc_zero idle_run (L183, boot adc_zero reset_state)) = L136.
Proof.
  split; [reflexivity |].
  destruct (idle_enters_sleep adc_zero (boot adc_zero reset_state) 0)
    as (_ & _ & H & _); [reflexivity | apply Nat.le_0_l | exact H].
Defined.
